(** * Dark Web Monitoring Dashboard: column normalisation and aggregation

    A shallow embedding of [Dark_web_monitoring_dashboard.py]: the column
    normaliser [clean_column_names], the upload loop
    [process_uploaded_files] and the callback [update_dashboard].

    Modelling conventions.
    - A Python [str] is a [string]; the folding operations [strip] and
      [lower] and the search that ignores case are those of Python on ASCII
      text.
    - A pandas [DataFrame] is its list of column labels together with its
      rows. The labels are text, as the header cells of a sheet are. A cell
      is an untyped Python object (missing, text or a timestamp); columns
      are object columns. A label may occur more than once: selecting it
      then yields a frame, not a series.
    - A Python exception is a value of [exn] carried by the [result] monad;
      [try ... except Exception] is a [match] on it. The [print] calls are
      left out.
    - [base64.b64decode], [pd.read_excel] and the date parser behind
      [pd.to_datetime] are library code: they are variables of the sections
      that use them. A plotly figure is the title and the series it is
      given. *)

From Stdlib Require Import ZArith Ascii String List Lia DecimalString Sorted.
From Stdlib Require Import DecimalFacts DecimalNat.
From stdpp Require Import base decidable option list countable strings gmap.

Local Open Scope Z_scope.

(** ** Python string operations *)

Module Text.

(** [str.isspace] on one ASCII character: tab, line feed, vertical tab,
    form feed, carriage return, the four separators 0x1c..0x1f, space. *)
Definition is_space (c : ascii) : bool :=
  let n := nat_of_ascii c in
  ((9 <=? n) && (n <=? 13) || (28 <=? n) && (n <=? 32))%nat.

Definition is_upper (c : ascii) : bool :=
  let n := nat_of_ascii c in ((65 <=? n) && (n <=? 90))%nat.

Definition lower_char (c : ascii) : ascii :=
  if is_upper c then ascii_of_nat (nat_of_ascii c + 32) else c.

(** [s.lower()] *)
Fixpoint lower (s : string) : string :=
  match s with
  | EmptyString => EmptyString
  | String c s' => String (lower_char c) (lower s')
  end.

Fixpoint lstrip (s : string) : string :=
  match s with
  | EmptyString => EmptyString
  | String c s' => if is_space c then lstrip s' else s
  end.

Definition is_empty (s : string) : bool :=
  match s with EmptyString => true | _ => false end.

Fixpoint rstrip (s : string) : string :=
  match s with
  | EmptyString => EmptyString
  | String c s' =>
      let r := rstrip s' in
      if is_space c && is_empty r then EmptyString else String c r
  end.

(** [s.strip()] *)
Definition strip (s : string) : string := rstrip (lstrip s).

(** [s.split(sep)] for a one-character separator: never returns the empty
    list, and keeps empty pieces. *)
Fixpoint split (sep : ascii) (s : string) : list string :=
  match s with
  | EmptyString => [EmptyString]
  | String c s' =>
      if Ascii.eqb c sep then EmptyString :: split sep s'
      else match split sep s' with
           | piece :: pieces => String c piece :: pieces
           | [] => [String c EmptyString]
           end
  end.

Fixpoint startswith (p s : string) : bool :=
  match p, s with
  | EmptyString, _ => true
  | String a p', String b s' => Ascii.eqb a b && startswith p' s'
  | String _ _, EmptyString => false
  end.

(** [p in s]: [p] occurs in [s] at some offset. *)
Fixpoint contains (p s : string) : bool :=
  startswith p s ||
  match s with
  | EmptyString => false
  | String _ s' => contains p s'
  end.

(** [re.search(p, s, re.IGNORECASE)] for a pattern [p] without regular
    expression metacharacters: a substring search that ignores case. *)
Definition search_ignorecase (p s : string) : bool :=
  contains (lower p) (lower s).

(** [str(n)] for a natural number. *)
Definition of_nat (n : nat) : string :=
  NilZero.string_of_uint (Nat.to_uint n).

End Text.

(** ** Exceptions *)

Inductive exn : Type :=
| ValueError          (* tuple unpacking, [pd.to_datetime] of a frame *)
| BinasciiError       (* [base64.b64decode] *)
| KeyError            (* a label that is not a column *)
| InvalidIndexError   (* [pd.concat] realigning repeated labels *)
| DateParseError      (* [pd.to_datetime] on text that is not a date *)
| AttributeError      (* [.unique] or [.str] on a frame *)
| PreventUpdate.      (* [dash.exceptions.PreventUpdate] *)

Inductive result (A : Type) : Type :=
| Ok (a : A)
| Raise (e : exn).

Arguments Ok {A} a.
Arguments Raise {A} e.

Definition bind {A B : Type} (r : result A) (k : A -> result B) : result B :=
  match r with
  | Ok a => k a
  | Raise e => Raise e
  end.

Notation "'let*' x ':=' r 'in' k" := (bind r (fun x => k))
  (at level 10, x name, r at level 100, k at level 200).

Fixpoint mapM {A B : Type} (f : A -> result B) (l : list A) : result (list B) :=
  match l with
  | [] => Ok []
  | x :: l' => let* y := f x in let* ys := mapM f l' in Ok (y :: ys)
  end.

(** ** Cells, timestamps and frames *)

(** A cell of an object column: missing ([NaN], [None], [NaT]), text, or a
    timestamp in nanoseconds since the epoch. *)
Inductive cell : Type :=
| CNull
| CStr (s : string)
| CTime (ns : Z).

Global Instance cell_eq_dec : EqDecision cell.
Proof. solve_decision. Defined.

Definition cell_to_sum (c : cell) : unit + (string + Z) :=
  match c with
  | CNull => inl tt
  | CStr s => inr (inl s)
  | CTime t => inr (inr t)
  end.

Definition cell_of_sum (x : unit + (string + Z)) : cell :=
  match x with
  | inl _ => CNull
  | inr (inl s) => CStr s
  | inr (inr t) => CTime t
  end.

Global Program Instance cell_countable : Countable cell :=
  inj_countable' cell_to_sum cell_of_sum _.
Next Obligation. by intros []. Qed.

(** A value of a [datetime64] column or a [pd.Timestamp] scalar. *)
Inductive datetime : Type :=
| NaT
| Timestamp (ns : Z).

Definition cell_of_datetime (d : datetime) : cell :=
  match d with
  | NaT => CNull
  | Timestamp t => CTime t
  end.

Record DataFrame : Type := {
  columns : list string;
  rows : list (list cell)
}.

Global Instance DataFrame_eq_dec : EqDecision DataFrame.
Proof. solve_decision. Defined.

(** [df[label]] is a [Series] when the label names one column and a frame
    when it names several. *)
Inductive selection : Type :=
| Series (values : list cell)
| Frame (df : DataFrame).

(** Positions of [label] among [cols], counted from [i]. *)
Fixpoint positions_from (i : nat) (label : string) (cols : list string) : list nat :=
  match cols with
  | [] => []
  | c :: cs =>
      if decide (c = label) then i :: positions_from (S i) label cs
      else positions_from (S i) label cs
  end.

Definition positions (label : string) (cols : list string) : list nat :=
  positions_from 0 label cols.

Definition cell_at (i : nat) (row : list cell) : cell := default CNull (row !! i).

(** [df.take(indexer, axis=1)] *)
Definition take_columns (df : DataFrame) (indexer : list nat) : DataFrame :=
  {| columns := map (fun i => default EmptyString (columns df !! i)) indexer;
     rows := map (fun row => map (fun i => cell_at i row) indexer) (rows df) |}.

(** [df[keys]] for a list of labels: every column bearing a requested
    label, key by key; [KeyError] when a key names no column. *)
Definition getitem_list (df : DataFrame) (keys : list string) : result DataFrame :=
  if forallb (fun k => bool_decide (k ∈ columns df)) keys
  then Ok (take_columns df (flat_map (fun k => positions k (columns df)) keys))
  else Raise KeyError.

(** [df[label]] for one label. *)
Definition getitem (df : DataFrame) (label : string) : result selection :=
  match positions label (columns df) with
  | [] => Raise KeyError
  | [i] => Ok (Series (map (cell_at i) (rows df)))
  | indexer => Ok (Frame (take_columns df indexer))
  end.

(** Attribute access that only a [Series] has ([.unique], [.str]). *)
Definition series_attr (sel : selection) : result (list cell) :=
  match sel with
  | Series values => Ok values
  | Frame _ => Raise AttributeError
  end.

Fixpoint set_cells (i : nat) (rws : list (list cell)) (values : list cell) : list (list cell) :=
  match rws, values with
  | row :: rws', v :: values' => <[i := v]> row :: set_cells i rws' values'
  | _, _ => rws
  end.

(** [df[label] = values] for a label that names one column. *)
Definition setitem (df : DataFrame) (label : string) (values : list cell) : DataFrame :=
  match positions label (columns df) with
  | [i] => {| columns := columns df; rows := set_cells i (rows df) values |}
  | _ => df
  end.

Fixpoint mask_rows {A : Type} (l : list A) (mask : list bool) : list A :=
  match l, mask with
  | x :: l', b :: mask' => if b then x :: mask_rows l' mask' else mask_rows l' mask'
  | _, _ => []
  end.

(** [df[mask]] for a boolean mask aligned with the rows. *)
Definition getitem_mask (df : DataFrame) (mask : list bool) : DataFrame :=
  {| columns := columns df; rows := mask_rows (rows df) mask |}.

(** [Series.unique()]: the distinct values in order of first appearance;
    a missing value is a value. *)
Fixpoint unique_from (seen : list cell) (l : list cell) : list cell :=
  match l with
  | [] => []
  | x :: l' =>
      if bool_decide (x ∈ seen) then unique_from seen l'
      else x :: unique_from (x :: seen) l'
  end.

Definition unique (l : list cell) : list cell := unique_from [] l.

Definition count_of (x : cell) (l : list cell) : nat :=
  length (List.filter (fun y => bool_decide (y = x)) l).

Definition is_null (c : cell) : bool :=
  match c with CNull => true | _ => false end.

(** Order of group keys: timestamps by time, text by code point, and
    timestamps before text. *)
Definition cell_leb (a b : cell) : bool :=
  match a, b with
  | CNull, _ => true
  | _, CNull => false
  | CTime x, CTime y => x <=? y
  | CTime _, CStr _ => true
  | CStr _, CTime _ => false
  | CStr x, CStr y => String.leb x y
  end.

Fixpoint insert_by {A : Type} (leb : A -> A -> bool) (x : A) (l : list A) : list A :=
  match l with
  | [] => [x]
  | y :: l' => if leb x y then x :: l else y :: insert_by leb x l'
  end.

Definition sort_by {A : Type} (leb : A -> A -> bool) (l : list A) : list A :=
  foldr (insert_by leb) [] l.

Definition non_null (l : list cell) : list cell :=
  List.filter (fun c => negb (is_null c)) l.

(** [groupby(key).size()]: one entry per distinct non-missing key, keys
    ascending. *)
Definition groupby_size (keys : list cell) : list (cell * nat) :=
  map (fun k => (k, count_of k keys)) (sort_by cell_leb (unique (non_null keys))).

(** [Series.value_counts()]: one entry per distinct non-missing value,
    most frequent first. *)
Definition value_counts (values : list cell) : list (cell * nat) :=
  sort_by (fun a b => (snd b <=? snd a)%nat)
    (map (fun k => (k, count_of k values)) (unique (non_null values))).

(** [Series.str.contains(pat, case=case, na=na)] on one element: a cell
    that is not text yields [na]. *)
Definition str_contains (pat : string) (case : bool) (na : bool) (c : cell) : bool :=
  match c with
  | CStr s => if case then Text.contains pat s else Text.search_ignorecase pat s
  | _ => na
  end.

Definition has_repeated_label (df : DataFrame) : bool :=
  negb (bool_decide (NoDup (columns df))).

Fixpoint dedup (seen : list string) (l : list string) : list string :=
  match l with
  | [] => []
  | x :: l' =>
      if bool_decide (x ∈ seen) then dedup seen l' else x :: dedup (x :: seen) l'
  end.

(** [df.reindex(columns=cols)] for a frame with distinct labels. *)
Definition reindex_columns (cols : list string) (df : DataFrame) : list (list cell) :=
  map (fun row =>
         map (fun c => match positions c (columns df) with
                       | i :: _ => cell_at i row
                       | [] => CNull
                       end) cols) (rows df).

(** [pd.concat(frames, ignore_index=True)]. Frames with one and the same
    list of labels are stacked. Otherwise the frames are realigned on the
    union of their labels, which pandas refuses for a frame that repeats a
    label. *)
Definition concat (frames : list DataFrame) : result DataFrame :=
  match frames with
  | [] => Raise ValueError
  | df :: rest =>
      if forallb (fun d => bool_decide (columns d = columns df)) rest
      then Ok {| columns := columns df; rows := flat_map rows frames |}
      else if existsb has_repeated_label frames then Raise InvalidIndexError
      else let cols := dedup [] (flat_map columns frames) in
           Ok {| columns := cols; rows := flat_map (reindex_columns cols) frames |}
  end.

(** [df.to_dict('records')]: one dictionary per row; a later column
    overwrites an earlier one with the same label. *)
Definition to_dict_records (df : DataFrame) : list (gmap string cell) :=
  map (fun row => list_to_map (reverse (zip (columns df) row))) (rows df).

(** ** The dashboard *)

Definition REQUIRED_COLUMNS : list string :=
  ["Keyword"; "URL"; "Findings"; "Link Response"; "Time"; "Date"].

Definition column_mapping : gmap string string :=
  list_to_map
    [("keyword", "Keyword");
     ("link", "URL");
     ("findings", "Findings");
     ("link response", "Link Response");
     ("time", "Time");
     ("date", "Date")].

(** The folding of one column name: [col.strip().lower()]. *)
Definition fold_name (col : string) : string := Text.lower (Text.strip col).

(** [df.rename(columns=mapping)] on one label. *)
Definition rename (mapping : gmap string string) (label : string) : string :=
  default label (mapping !! label).

Definition clean_column_names (df : DataFrame) : DataFrame :=
  let df := {| columns := map fold_name (columns df); rows := rows df |} in
  let df := {| columns := map (rename column_mapping) (columns df); rows := rows df |} in
  df.

(** Lines 48 to 52, what the [try] block does with a parsed table:
    normalise the names, check the six columns, project. [Ok None] is the
    branch that only prints. *)
Definition normalize_fragment (df : DataFrame) : result (option DataFrame) :=
  let df := clean_column_names df in
  if forallb (fun col => bool_decide (col ∈ columns df)) REQUIRED_COLUMNS
  then let* fragment := getitem_list df REQUIRED_COLUMNS in Ok (Some fragment)
  else Ok None.

(** [content_type, content_string = pieces] *)
Definition unpack2 (pieces : list string) : result (string * string) :=
  match pieces with
  | [a; b] => Ok (a, b)
  | _ => Raise ValueError
  end.

Definition of_option {A : Type} (e : exn) (o : option A) : result A :=
  match o with
  | Some a => Ok a
  | None => Raise e
  end.

Definition datetime_ge (d bound : datetime) : bool :=
  match d, bound with
  | Timestamp t, Timestamp b => b <=? t
  | _, _ => false
  end.

Definition datetime_le (d bound : datetime) : bool :=
  match d, bound with
  | Timestamp t, Timestamp b => t <=? b
  | _, _ => false
  end.

(** The values the callback computes before it renders them. *)
Record Metrics : Type := {
  filtered_data : DataFrame;
  total_findings : nat;
  unique_keywords : nat;
  monitored_urls : nat;
  found_keywords : DataFrame;
  found_keyword_count : nat;
  findings_over_time : list (cell * nat);
  keyword_data : list (cell * nat);
  success_counts : list (cell * nat)
}.

Record Figure : Type := {
  title : string;
  points : list (cell * nat)
}.

(** The eight outputs of the callback, in the order of its [Output] list. *)
Record Outputs : Type := {
  total_findings_children : string;
  unique_keywords_children : string;
  monitored_urls_children : string;
  found_keyword_count_children : string;
  findings_over_time_figure : Figure;
  keyword_frequency_figure : Figure;
  success_frequency_figure : Figure;
  data_table_data : list (gmap string cell)
}.

Definition render (m : Metrics) : Outputs :=
  {| total_findings_children := "Total Findings: " +:+ Text.of_nat (total_findings m);
     unique_keywords_children := "Unique Keywords: " +:+ Text.of_nat (unique_keywords m);
     monitored_urls_children := "Monitored URLs: " +:+ Text.of_nat (monitored_urls m);
     found_keyword_count_children := "Found Keywords: " +:+ Text.of_nat (found_keyword_count m);
     findings_over_time_figure :=
       {| title := "Findings Over Time"; points := findings_over_time m |};
     keyword_frequency_figure :=
       {| title := "Keyword Frequency (All)"; points := keyword_data m |};
     success_frequency_figure :=
       {| title := "Keyword Success Rate"; points := success_counts m |};
     data_table_data := to_dict_records (filtered_data m) |}.

Section Dashboard.

(** [base64.b64decode]; [None] when it raises. *)
Variable b64decode : string -> option (list Byte.byte).

(** [pd.read_excel(io.BytesIO(decoded))]; [None] when it raises. *)
Variable read_excel : list Byte.byte -> option DataFrame.

(** The parser [pd.to_datetime] applies to text; [None] when it raises. *)
Variable parse_datetime : string -> option datetime.

(** The body of the [try] block: parse, then normalise. *)
Definition load_fragment (decoded : list Byte.byte) : result (option DataFrame) :=
  let* df := of_option ValueError (read_excel decoded) in
  normalize_fragment df.

(** The [for] loop, with [data_frames] as its state. An exception of the
    [try] block is caught and leaves [data_frames] as it is; the split
    and the decoding stand before the [try]. *)
Fixpoint process_loop (contents : list string) (data_frames : list DataFrame)
  : result (list DataFrame) :=
  match contents with
  | [] => Ok data_frames
  | content :: contents' =>
      let* pieces := unpack2 (Text.split "," content) in
      let content_string := snd pieces in
      let* decoded := of_option BinasciiError (b64decode content_string) in
      let data_frames :=
        match load_fragment decoded with
        | Ok (Some fragment) => data_frames ++ [fragment]
        | Ok None => data_frames
        | Raise _ => data_frames
        end in
      process_loop contents' data_frames
  end.

Definition process_uploaded_files (contents : list string) : result DataFrame :=
  let* data_frames := process_loop contents [] in
  match data_frames with
  | _ :: _ => concat data_frames
  | [] => Ok {| columns := REQUIRED_COLUMNS; rows := [] |}
  end.

(** [pd.to_datetime] on one element, with the default [errors='raise']. *)
Definition to_datetime_cell (c : cell) : result datetime :=
  match c with
  | CNull => Ok NaT
  | CTime t => Ok (Timestamp t)
  | CStr s => of_option DateParseError (parse_datetime s)
  end.

(** [pd.to_datetime(data['Date'])]: a frame cannot be assembled into
    dates. *)
Definition to_datetime (sel : selection) : result (list datetime) :=
  match sel with
  | Series values => mapM to_datetime_cell values
  | Frame _ => Raise ValueError
  end.

(** Lines 194 and 197: convert the [Date] column and store it, then keep
    the rows whose date lies between the two bounds. The two comparisons
    read the column just stored, whose values are [dates]; a comparison
    with [NaT] is false. *)
Definition filter_by_date (data : DataFrame) (start_date end_date : string)
  : result DataFrame :=
  let* date := getitem data "Date" in
  let* dates := to_datetime date in
  let data := setitem data "Date" (map cell_of_datetime dates) in
  let* lower_bound := of_option DateParseError (parse_datetime start_date) in
  let* upper_bound := of_option DateParseError (parse_datetime end_date) in
  let mask := map (fun d => datetime_ge d lower_bound && datetime_le d upper_bound) dates in
  Ok (getitem_mask data mask).

(** Lines 193 to 248 of [update_dashboard]. *)
Definition aggregate (data : DataFrame) (start_date end_date : string)
  : result Metrics :=
  let* filtered := filter_by_date data start_date end_date in
  let* keyword := bind (getitem filtered "Keyword") series_attr in
  let* url := bind (getitem filtered "URL") series_attr in
  let* findings := bind (getitem filtered "Findings") series_attr in
  let found := getitem_mask filtered (map (str_contains "Keyword found" false false) findings) in
  let* date := bind (getitem filtered "Date") series_attr in
  let* found_keyword := bind (getitem found "Keyword") series_attr in
  Ok {| filtered_data := filtered;
        total_findings := length (rows filtered);
        unique_keywords := length (unique keyword);
        monitored_urls := length (unique url);
        found_keywords := found;
        found_keyword_count := length (rows found);
        findings_over_time := groupby_size date;
        keyword_data := value_counts keyword;
        success_counts := groupby_size found_keyword |}.

Definition update_dashboard (contents : option (list string))
    (start_date end_date : string) : result Outputs :=
  match contents with
  | None => Raise PreventUpdate
  | Some contents =>
      let* data := process_uploaded_files contents in
      let* m := aggregate data start_date end_date in
      Ok (render m)
  end.

End Dashboard.

(** ** Vocabulary of the statements *)

(** A table in the canonical schema. *)
Definition canonical (df : DataFrame) : Prop := columns df = REQUIRED_COLUMNS.


Section Uploads.

Variable b64decode : string -> option (list Byte.byte).
Variable read_excel : list Byte.byte -> option DataFrame.

(** An upload the loop can split and decode. *)
Definition well_formed_upload (content : string) : Prop :=
  ∃ content_type content_string decoded,
    Text.split "," content = [content_type; content_string]
    ∧ b64decode content_string = Some decoded.

(** The table an upload parses to, when it does. *)
Definition upload_table (content : string) : option DataFrame :=
  match Text.split "," content with
  | [_; content_string] => b64decode content_string ≫= read_excel
  | _ => None
  end.

(** The fragment an upload contributes, when it contributes one. *)
Definition accepted_fragment (content : string) : option DataFrame :=
  df ← upload_table content;
  match normalize_fragment df with
  | Ok (Some fragment) => Some fragment
  | _ => None
  end.

End Uploads.

Section Rows.

Variable parse_datetime : string -> option datetime.

(** The date of a row of a canonical table, as [pd.to_datetime] reads
    its [Date] cell. *)
Definition date_of (row : list cell) : result datetime :=
  to_datetime_cell parse_datetime (cell_at 5 row).

Definition in_range (lower_bound upper_bound d : datetime) : bool :=
  datetime_ge d lower_bound && datetime_le d upper_bound.

(** A row of a canonical table as the filtered table holds it: kept when
    its date lies in the range, with the date in place of the cell. *)
Definition keep_row (lower_bound upper_bound : datetime) (row : list cell)
  : option (list cell) :=
  match date_of row with
  | Ok d =>
      if in_range lower_bound upper_bound d
      then Some (<[5%nat := cell_of_datetime d]> row)
      else None
  | Raise _ => None
  end.

End Rows.

(** A row of a canonical table is a positive match. *)
Definition positive_row (row : list cell) : bool :=
  str_contains "Keyword found" false false (cell_at 2 row).

(** ** Instances of the library functions, for the examples

    A strict base64 decoder, a workbook reader that knows a fixed list of
    payloads, and a parser of ISO calendar dates ([YYYY-MM-DD], the format
    of the date picker). *)

Module Sample.

Definition b64_value (c : ascii) : option N :=
  let n := N_of_ascii c in
  (if (65 <=? n) && (n <=? 90) then Some (n - 65)
   else if (97 <=? n) && (n <=? 122) then Some (n - 71)
   else if (48 <=? n) && (n <=? 57) then Some (n + 4)
   else if n =? 43 then Some 62
   else if n =? 47 then Some 63
   else None)%N.

Definition byte_of_N (n : N) : Byte.byte := byte_of_ascii (ascii_of_N (n mod 256)%N).

Definition is_pad (c : ascii) : bool := Ascii.eqb c "=".

Fixpoint b64_quads (l : list ascii) : option (list Byte.byte) :=
  match l with
  | [] => Some []
  | a :: b :: c :: d :: l' =>
      x ← b64_value a;
      y ← b64_value b;
      if is_pad c && is_pad d && bool_decide (l' = []) then
        Some [byte_of_N (x * 4 + y / 16)]
      else
        z ← b64_value c;
        if is_pad d && bool_decide (l' = []) then
          Some [byte_of_N (x * 4 + y / 16); byte_of_N (y * 16 + z / 4)]
        else
          w ← b64_value d;
          bs ← b64_quads l';
          Some (byte_of_N (x * 4 + y / 16) :: byte_of_N (y * 16 + z / 4)
                  :: byte_of_N (z * 64 + w) :: bs)
  | _ => None
  end%N.

Definition b64decode (s : string) : option (list Byte.byte) :=
  b64_quads (list_ascii_of_string s).

(** A reader that recognises the payloads of [sheets] and fails on any
    other. *)
Definition read_excel (sheets : gmap string DataFrame) (decoded : list Byte.byte)
  : option DataFrame :=
  sheets !! string_of_list_byte decoded.

Definition digit (c : ascii) : option Z :=
  let n := Z.of_N (N_of_ascii c) in
  if (48 <=? n) && (n <=? 57) then Some (n - 48) else None.

Fixpoint number (acc : Z) (s : string) : option Z :=
  match s with
  | EmptyString => Some acc
  | String c s' => d ← digit c; number (10 * acc + d) s'
  end.

Definition is_leap (y : Z) : bool :=
  (y mod 4 =? 0) && (negb (y mod 100 =? 0) || (y mod 400 =? 0)).

Definition days_in_month (y m : Z) : Z :=
  if m =? 2 then (if is_leap y then 29 else 28)
  else if (m =? 4) || (m =? 6) || (m =? 9) || (m =? 11) then 30
  else 31.

(** Days from 1970-01-01 to the given civil date. *)
Definition days_from_civil (y m d : Z) : Z :=
  let y' := if m <=? 2 then y - 1 else y in
  let era := y' / 400 in
  let yoe := y' - era * 400 in
  let mp := if 2 <? m then m - 3 else m + 9 in
  let doy := (153 * mp + 2) / 5 + d - 1 in
  let doe := yoe * 365 + yoe / 4 - yoe / 100 + doy in
  era * 146097 + doe - 719468.

Definition ns_per_day : Z := 86400 * 1000000000.

Definition parse_datetime (s : string) : option datetime :=
  if bool_decide (s ∈ [""; "NaT"; "nat"; "NAT"; "nan"; "NaN"; "NAN"]) then Some NaT
  else match Text.split "-" s with
       | [ys; ms; ds] =>
           if bool_decide (String.length ys = 4%nat ∧ String.length ms = 2%nat
                           ∧ String.length ds = 2%nat) then
             y ← number 0 ys;
             m ← number 0 ms;
             d ← number 0 ds;
             if (1 <=? m) && (m <=? 12) && (1 <=? d) && (d <=? days_in_month y m)
             then Some (Timestamp (days_from_civil y m d * ns_per_day))
             else None
           else None
       | _ => None
       end.

Definition header : list string :=
  ["keyword"; " Link "; "FINDINGS"; "Link Response"; "time"; "Date"].

(** Five checks: three on 2021-01-01, two on 2021-02-01. *)
Definition sheet_ok : DataFrame :=
  {| columns := header;
     rows :=
       [ [CStr "leak"; CStr "http://a.onion"; CStr "KEYWORD FOUND: xyz";
          CStr "200"; CStr "10:00"; CStr "2021-01-01"];
         [CStr "leak"; CStr "http://b.onion"; CStr "nothing";
          CStr "200"; CStr "10:05"; CStr "2021-01-01"];
         [CStr "dump"; CStr "http://a.onion"; CNull;
          CStr "404"; CStr "10:10"; CStr "2021-01-01"];
         [CStr "dump"; CStr "http://c.onion"; CStr "Keyword found in page";
          CStr "200"; CStr "09:00"; CStr "2021-02-01"];
         [CStr "leak"; CStr "http://c.onion"; CStr "no match";
          CStr "200"; CStr "09:30"; CTime (days_from_civil 2021 2 1 * ns_per_day)] ] |}.

(** The same header without the time column. *)
Definition sheet_no_time : DataFrame :=
  {| columns := ["keyword"; "link"; "findings"; "link response"; "date"];
     rows := [ [CStr "leak"; CStr "http://d.onion"; CStr "Keyword found";
                CStr "200"; CStr "2021-01-02"] ] |}.

(** A sheet already in the canonical schema. *)
Definition sheet_canonical : DataFrame :=
  {| columns := REQUIRED_COLUMNS;
     rows := [ [CStr "leak"; CStr "http://e.onion"; CStr "Keyword found";
                CStr "200"; CStr "11:00"; CStr "2021-01-03"] ] |}.

(** Two columns that fold to [link]. *)
Definition sheet_two_links : DataFrame :=
  {| columns := ["keyword"; "Link"; "LINK"; "findings"; "link response"; "time"; "date"];
     rows := [ [CStr "leak"; CStr "http://f.onion"; CStr "http://g.onion";
                CStr "Keyword found"; CStr "200"; CStr "12:00"; CStr "2021-01-04"] ] |}.

(** One date cell that is not a date, one that is missing. *)
Definition sheet_bad_date : DataFrame :=
  {| columns := header;
     rows := [ [CStr "leak"; CStr "http://h.onion"; CStr "Keyword found";
                CStr "200"; CStr "13:00"; CStr "2021-01-05"];
               [CStr "leak"; CStr "http://i.onion"; CStr "Keyword found";
                CStr "200"; CStr "13:05"; CStr "not a date"] ] |}.

Definition sheet_missing_date : DataFrame :=
  {| columns := header;
     rows := [ [CStr "leak"; CStr "http://h.onion"; CStr "Keyword found";
                CStr "200"; CStr "13:00"; CStr "2021-01-05"];
               [CStr "dump"; CStr "http://i.onion"; CStr "Keyword found";
                CStr "200"; CStr "13:05"; CNull] ] |}.

(** The decoded payloads the reader knows: [b"ok"], [b"notime"], ... *)
Definition sheets : gmap string DataFrame :=
  list_to_map
    [("ok", sheet_ok); ("notime", sheet_no_time); ("canonical", sheet_canonical);
     ("twolinks", sheet_two_links); ("baddate", sheet_bad_date);
     ("nodate", sheet_missing_date)].

(** Upload contents: [data:...;base64,] followed by the encoded payload. *)
Definition content_type : string :=
  "data:application/vnd.openxmlformats-officedocument.spreadsheetml.sheet;base64".

Definition prefix : string := content_type +:+ ",".

Definition upload_ok : string := prefix +:+ "b2s=".
Definition upload_no_time : string := prefix +:+ "bm90aW1l".
Definition upload_canonical : string := prefix +:+ "Y2Fub25pY2Fs".
Definition upload_two_links : string := prefix +:+ "dHdvbGlua3M=".
Definition upload_missing_date : string := prefix +:+ "bm9kYXRl".
Definition upload_garbage : string := prefix +:+ "Z2FyYmFnZQ==".

(** The canonical table a sheet with the six columns in order is
    loaded as. *)
Definition table_of (sheet : DataFrame) : DataFrame :=
  {| columns := REQUIRED_COLUMNS; rows := rows sheet |}.

Definition jan_1 : Z := days_from_civil 2021 1 1 * ns_per_day.
Definition jan_31 : Z := days_from_civil 2021 1 31 * ns_per_day.

Definition process := process_uploaded_files b64decode (read_excel sheets).
Definition run := update_dashboard b64decode (read_excel sheets) parse_datetime.

End Sample.

(** ** Vocabulary of the further statements *)

(** [sep.join(pieces)] for a one-character separator. *)
Fixpoint join (sep : ascii) (pieces : list string) : string :=
  match pieces with
  | [] => EmptyString
  | [piece] => piece
  | piece :: pieces' => piece +:+ String sep (join sep pieces')
  end.

(** [s.count(c)] *)
Fixpoint count_char (c : ascii) (s : string) : nat :=
  match s with
  | EmptyString => 0%nat
  | String d s' => if Ascii.eqb d c then S (count_char c s') else count_char c s'
  end.

(** [s.isspace()], or [s] is empty. *)
Fixpoint all_space (s : string) : bool :=
  match s with
  | EmptyString => true
  | String c s' => Text.is_space c && all_space s'
  end.


(** [int(text)] for a string of decimal digits. *)
Definition to_nat (text : string) : option nat :=
  Nat.of_uint <$> NilZero.uint_of_string text.

(** * Properties *)

(** ** Text *)


Lemma lower_char_not_upper (c : ascii) : Text.is_upper (Text.lower_char c) = false.
Proof. by destruct c as [[] [] [] [] [] [] [] []]. Qed.

Lemma lower_char_idemp (c : ascii) : Text.lower_char (Text.lower_char c) = Text.lower_char c.
Proof. unfold Text.lower_char at 1. by rewrite lower_char_not_upper. Qed.

Lemma lower_idemp (s : string) : Text.lower (Text.lower s) = Text.lower s.
Proof. induction s as [|c s IH]; simpl; [done | by rewrite lower_char_idemp, IH]. Qed.





Lemma lower_no_upper (s : string) (c : ascii) (r : string) :
  Text.lower s = String c r → Text.is_upper c = false.
Proof.
  destruct s as [|d s]; simpl; [done |].
  intros H. injection H as <- _. apply lower_char_not_upper.
Qed.

(** ** Column lookup *)

Lemma positions_from_lookup (n : nat) (label : string) (cols : list string) (i : nat) :
  i ∈ positions_from n label cols ↔ ∃ j, i = (n + j)%nat ∧ cols !! j = Some label.
Proof.
  revert n. induction cols as [|c cols IH]; intros n; simpl.
  - split; [by intros ?%elem_of_nil | by intros (j & _ & ?)].
  - destruct (decide (c = label)) as [->|Hne].
    + rewrite elem_of_cons, IH. split.
      * intros [-> | (j & -> & Hj)]; [exists 0%nat | exists (S j)]; split; (lia || done).
      * intros ([|j] & -> & Hj); [left; lia | right; exists j; split; [lia | done]].
    + rewrite IH. split.
      * intros (j & -> & Hj). exists (S j). split; [lia | done].
      * intros ([|j] & -> & Hj); simpl in Hj; [congruence |].
        exists j. split; [lia | done].
Qed.

Lemma positions_lookup (label : string) (cols : list string) (i : nat) :
  i ∈ positions label cols ↔ cols !! i = Some label.
Proof.
  unfold positions. rewrite positions_from_lookup. split.
  - by intros (j & -> & Hj).
  - intros H. by exists i.
Qed.

Lemma positions_nil (label : string) (cols : list string) :
  positions label cols = [] ↔ label ∉ cols.
Proof.
  split.
  - intros H [i Hi]%list_elem_of_lookup. apply positions_lookup in Hi.
    rewrite H in Hi. by apply elem_of_nil in Hi.
  - intros H. destruct (positions label cols) as [|i l] eqn:E; [done |].
    exfalso. apply H. assert (i ∈ positions label cols) as Hi by (rewrite E; left).
    apply positions_lookup in Hi. by eapply list_elem_of_lookup_2.
Qed.

Lemma take_labels (cols : list string) (label : string) :
  map (fun i => default EmptyString (cols !! i)) (positions label cols)
  = replicate (length (positions label cols)) label.
Proof.
  assert (Forall (fun i => cols !! i = Some label) (positions label cols)) as H.
  { apply Forall_forall. intros i. apply positions_lookup. }
  induction H as [|i l Hi _ IH]; simpl; [done |]. by rewrite Hi, IH.
Qed.

Lemma subseteq_forallb (keys cols : list string) :
  forallb (fun k => bool_decide (k ∈ cols)) keys = true ↔ keys ⊆ cols.
Proof.
  rewrite forallb_forall. split.
  - intros H k Hk. apply list_elem_of_In in Hk. by apply H, bool_decide_eq_true in Hk.
  - intros H k Hk. apply bool_decide_eq_true, H, list_elem_of_In, Hk.
Qed.

(** ** The rename map *)

Lemma column_mapping_inv (label v : string) :
  column_mapping !! label = Some v →
  (label, v) ∈ [("keyword", "Keyword"); ("link", "URL"); ("findings", "Findings");
                ("link response", "Link Response"); ("time", "Time"); ("date", "Date")].
Proof. apply elem_of_list_to_map_2. Qed.

Lemma rename_fold_URL (col : string) :
  rename column_mapping (fold_name col) = "URL" ↔ fold_name col = "link".
Proof.
  split.
  - unfold rename. destruct (column_mapping !! fold_name col) as [v|] eqn:E; simpl.
    + intros ->. apply column_mapping_inv in E.
      repeat (apply elem_of_cons in E as [E|E]; [congruence |]).
      by apply elem_of_nil in E.
    + intros H. apply lower_no_upper in H. discriminate.
  - intros ->. reflexivity.
Qed.

(** ** The column normaliser *)


Lemma normalize_fragment_accept (df : DataFrame) :
  REQUIRED_COLUMNS ⊆ columns (clean_column_names df) →
  normalize_fragment df
  = Ok (Some (take_columns (clean_column_names df)
                (flat_map (fun k => positions k (columns (clean_column_names df)))
                   REQUIRED_COLUMNS))).
Proof.
  intros H. apply subseteq_forallb in H. unfold normalize_fragment, getitem_list.
  by rewrite H.
Qed.

Lemma normalize_fragment_reject (df : DataFrame) :
  ¬ REQUIRED_COLUMNS ⊆ columns (clean_column_names df) →
  normalize_fragment df = Ok None.
Proof.
  intros H. unfold normalize_fragment.
  destruct (forallb _ REQUIRED_COLUMNS) eqn:E; [| done].
  by apply subseteq_forallb in E.
Qed.



(** ** The upload loop *)

Section UploadLoop.

Context (b64decode : string -> option (list Byte.byte)).
Context (read_excel : list Byte.byte -> option DataFrame).

Local Abbreviation loop := (process_loop b64decode read_excel).
Local Abbreviation process := (process_uploaded_files b64decode read_excel).
Local Abbreviation fragment := (accepted_fragment b64decode read_excel).
Local Abbreviation table := (upload_table b64decode read_excel).
Local Abbreviation well_formed := (well_formed_upload b64decode).

Lemma process_loop_app (pre post : list string) (acc : list DataFrame) :
  loop (pre ++ post) acc = bind (loop pre acc) (loop post).
Proof.
  revert acc. induction pre as [|c pre IH]; intros acc; [done |].
  cbn [app process_loop].
  destruct (unpack2 (Text.split "," c)) as [pieces|e]; [| done]. simpl.
  destruct (b64decode (snd pieces)) as [decoded|]; [| done]. simpl.
  apply IH.
Qed.

(** One turn of the loop on an upload that splits and decodes. *)
Lemma process_loop_cons (c : string) (rest : list string) (acc : list DataFrame)
    (content_type content_string : string) (decoded : list Byte.byte) :
  Text.split "," c = [content_type; content_string] →
  b64decode content_string = Some decoded →
  loop (c :: rest) acc = loop rest (acc ++ option_list (fragment c)).
Proof.
  intros Hs Hd. cbn [process_loop]. rewrite Hs. simpl. rewrite Hd. simpl.
  unfold accepted_fragment, upload_table, load_fragment. rewrite Hs. simpl. rewrite Hd. simpl.
  destruct (read_excel decoded) as [df|]; simpl; [| by rewrite app_nil_r].
  destruct (normalize_fragment df) as [[f|]|e]; simpl; by rewrite ?app_nil_r.
Qed.

Lemma process_loop_well_formed (contents : list string) (acc : list DataFrame) :
  Forall well_formed contents →
  loop contents acc = Ok (acc ++ omap fragment contents).
Proof.
  intros H. revert acc. induction H as [|c contents (t & p & d & Hs & Hd) _ IH]; intros acc.
  - simpl. by rewrite app_nil_r.
  - rewrite (process_loop_cons _ _ _ _ _ _ Hs Hd), IH.
    cbn [omap list_omap]. destruct (fragment c); simpl; by rewrite <- ?app_assoc, ?app_nil_r.
Qed.

(** An upload that contributes no fragment leaves the loop as it was. *)
Lemma process_loop_drop (pre post : list string) (c : string) (acc : list DataFrame) :
  well_formed c → fragment c = None →
  loop (pre ++ c :: post) acc = loop (pre ++ post) acc.
Proof.
  intros (t & p & d & Hs & Hd) Hf. rewrite !process_loop_app.
  destruct (loop pre acc) as [frames|e]; [| done]. cbn [bind].
  rewrite (process_loop_cons _ _ _ _ _ _ Hs Hd), Hf. simpl. by rewrite app_nil_r.
Qed.

Lemma process_drop (pre post : list string) (c : string) :
  well_formed c → fragment c = None →
  process (pre ++ c :: post) = process (pre ++ post).
Proof.
  intros Hw Hf. unfold process_uploaded_files. by rewrite process_loop_drop.
Qed.



Lemma process_loop_ok_well_formed (contents : list string) (acc frames : list DataFrame) :
  loop contents acc = Ok frames → Forall well_formed contents.
Proof.
  revert acc. induction contents as [|c contents IH]; intros acc H; [constructor |].
  cbn [process_loop] in H.
  destruct (Text.split "," c) as [|t [|p [|x l]]] eqn:Hs; simpl in H; try done.
  destruct (b64decode p) as [d|] eqn:Hd; simpl in H; [| done].
  constructor; [by exists t, p, d | by eapply IH].
Qed.


(** C6. An upload whose bytes the spreadsheet reader refuses is caught
    inside the loop and dropped: the [try] block raises, the upload adds
    no fragment, the loop goes on with the uploads that follow, and the
    result of [process_uploaded_files] is the one the remaining uploads
    give. When the remaining uploads split and decode, the loop ends with
    exactly their fragments, which are then concatenated. *)
Theorem unparseable_upload_is_dropped (pre post : list string)
    (content content_type content_string : string) (decoded : list Byte.byte) :
  Text.split "," content = [content_type; content_string] →
  b64decode content_string = Some decoded →
  read_excel decoded = None →
  (∃ e, load_fragment read_excel decoded = Raise e)
  ∧ fragment content = None
  ∧ (∀ rest acc, loop (content :: rest) acc = loop rest acc)
  ∧ process (pre ++ content :: post) = process (pre ++ post)
  ∧ (Forall well_formed (pre ++ post) →
       loop (pre ++ content :: post) [] = Ok (omap fragment (pre ++ post))
       ∧ process (pre ++ content :: post)
         = match omap fragment (pre ++ post) with
           | [] => Ok {| columns := REQUIRED_COLUMNS; rows := [] |}
           | frames => concat frames
           end).
Proof.
  intros Hs Hd Hr.
  assert (fragment content = None) as Hf.
  { unfold accepted_fragment, upload_table. rewrite Hs. simpl. rewrite Hd. simpl.
    by rewrite Hr. }
  assert (well_formed content) as Hw by (by exists content_type, content_string, decoded).
  split; [exists ValueError; unfold load_fragment; by rewrite Hr |].
  split; [done |].
  split.
  { intros rest acc. rewrite (process_loop_cons _ _ _ _ _ _ Hs Hd), Hf. simpl.
    by rewrite app_nil_r. }
  split; [by apply process_drop |].
  intros Hall.
  assert (loop (pre ++ content :: post) [] = Ok (omap fragment (pre ++ post))) as Hloop.
  { rewrite process_loop_drop by done. by rewrite process_loop_well_formed. }
  split; [done |]. unfold process_uploaded_files. rewrite Hloop. simpl.
  by destruct (omap fragment (pre ++ post)).
Qed.


End UploadLoop.

Lemma indexer_labels (keys cols : list string) :
  map (fun i => default EmptyString (cols !! i)) (flat_map (fun k => positions k cols) keys)
  = flat_map (fun k => replicate (length (positions k cols)) k) keys.
Proof.
  induction keys as [|k keys IH]; simpl; [done |].
  by rewrite map_app, take_labels, IH.
Qed.




(** C8. A table with no column that folds to [link] is rejected as a whole,
    whatever its other columns: only [link] is renamed to [URL], so [URL] is
    not a column of the normalised table and the check of the six columns
    fails. A column named [URL] folds to [url], which the rename map does
    not know; a table already in the canonical schema is therefore not
    accepted, and its upload contributes nothing. *)
Theorem url_named_column_is_rejected (df : DataFrame) :
  (∀ col, col ∈ columns df → fold_name col ≠ "link") →
  ("URL" ∉ columns (clean_column_names df))
  ∧ normalize_fragment df = Ok None
  ∧ fold_name "URL" = "url"
  ∧ column_mapping !! "url" = None
  ∧ rename column_mapping (fold_name "URL") = "url"
  ∧ ∀ b64decode read_excel pre post content,
      well_formed_upload b64decode content →
      upload_table b64decode read_excel content = Some df →
      process_uploaded_files b64decode read_excel (pre ++ content :: post)
      = process_uploaded_files b64decode read_excel (pre ++ post).
Proof.
  intros Hno.
  assert ("URL" ∉ columns (clean_column_names df)) as Hurl.
  { unfold clean_column_names. simpl. rewrite map_map.
    intros (col & Hcol & Hin)%list_elem_of_fmap.
    symmetry in Hcol. apply rename_fold_URL in Hcol. by apply (Hno col). }
  assert (normalize_fragment df = Ok None) as Hrej.
  { apply normalize_fragment_reject. intros Hsub. apply Hurl, Hsub.
    unfold REQUIRED_COLUMNS. set_solver. }
  split; [done |]. split; [done |]. split; [done |]. split; [done |]. split; [done |].
  intros b64decode read_excel pre post content Hw Ht.
  apply process_drop; [done |]. unfold accepted_fragment. rewrite Ht. simpl. by rewrite Hrej.
Qed.

(** ** Distinct values *)






(** ** Frames in the canonical schema *)

Lemma getitem_canonical (df : DataFrame) (label : string) (i : nat) :
  canonical df → positions label REQUIRED_COLUMNS = [i] →
  getitem df label = Ok (Series (map (cell_at i) (rows df))).
Proof. intros Hc Hp. unfold getitem. by rewrite Hc, Hp. Qed.

Lemma series_canonical (df : DataFrame) (label : string) (i : nat) :
  canonical df → positions label REQUIRED_COLUMNS = [i] →
  bind (getitem df label) series_attr = Ok (map (cell_at i) (rows df)).
Proof. intros Hc Hp. by rewrite (getitem_canonical _ _ _ Hc Hp). Qed.

Lemma mapM_Ok {A B : Type} (f : A → result B) (l : list A) (l' : list B) :
  mapM f l = Ok l' ↔ Forall2 (fun x y => f x = Ok y) l l'.
Proof.
  revert l'. induction l as [|x l IH]; intros l'; simpl.
  - split; [intros [= <-]; constructor | by intros ->%Forall2_nil_inv_l].
  - destruct (f x) as [y|e] eqn:Hx; simpl.
    + destruct (mapM f l) as [ys|e] eqn:Hl; simpl.
      * split.
        -- intros [= <-]. constructor; [done | by apply IH].
        -- intros (y' & ys' & Hy & Hys & ->)%Forall2_cons_inv_l.
           apply IH in Hys. congruence.
      * split; [done |].
        intros (y' & ys' & Hy & Hys & ->)%Forall2_cons_inv_l. by apply IH in Hys.
    + split; [done |]. intros (y' & ys' & Hy & Hys & ->)%Forall2_cons_inv_l. congruence.
Qed.

Lemma mapM_total {A B : Type} (f : A → result B) (l : list A) :
  Forall (fun x => ∃ y, f x = Ok y) l → ∃ l', mapM f l = Ok l'.
Proof.
  induction 1 as [|x l [y Hy] _ [l' IH]]; simpl; [by eexists |].
  rewrite Hy, IH. by eexists.
Qed.

Lemma mapM_Raise {A B : Type} (f : A → result B) (l : list A) (e : exn) :
  mapM f l = Raise e → ∃ x, x ∈ l ∧ f x = Raise e.
Proof.
  induction l as [|x l IH]; simpl; [done |].
  destruct (f x) as [y|e'] eqn:Hx; simpl.
  - destruct (mapM f l) as [ys|e'] eqn:Hl; simpl; [done |].
    intros [= ->]. destruct IH as (x' & Hin & Hx'); [done |].
    exists x'. split; [by right | done].
  - intros [= ->]. exists x. split; [by left | done].
Qed.

Lemma mask_rows_map {A : Type} (f : A → bool) (l : list A) :
  mask_rows l (map f l) = List.filter f l.
Proof. induction l as [|x l IH]; simpl; [done |]. by rewrite IH. Qed.

Section Aggregation.

Context (parse_datetime : string -> option datetime).

Local Abbreviation date := (date_of parse_datetime).
Local Abbreviation keep := (keep_row parse_datetime).
Local Abbreviation agg := (aggregate parse_datetime).
Local Abbreviation to_date := (to_datetime_cell parse_datetime).

Lemma to_datetime_cell_raise (c : cell) (e : exn) :
  to_date c = Raise e →
  e = DateParseError ∧ ∃ text, c = CStr text ∧ parse_datetime text = None.
Proof.
  destruct c as [|text|t]; simpl; try done.
  destruct (parse_datetime text) eqn:E; simpl; [done |].
  intros [= <-]. split; [done | by exists text].
Qed.

(** The rows the mask keeps, row by row. *)
Lemma mask_rows_keep (lo hi : datetime) (rws : list (list cell)) (dates : list datetime) :
  Forall2 (fun row d => date row = Ok d) rws dates →
  mask_rows (set_cells 5 rws (map cell_of_datetime dates))
    (map (fun d => datetime_ge d lo && datetime_le d hi) dates)
  = omap (keep lo hi) rws.
Proof.
  induction 1 as [|row d rws dates Hd _ IH]; [done |].
  cbn [map set_cells mask_rows omap list_omap]. unfold keep_row at 1.
  rewrite Hd. unfold in_range.
  destruct (datetime_ge d lo && datetime_le d hi); by rewrite IH.
Qed.

(** The filter on a canonical table, in closed form. *)
Lemma filter_by_date_canonical (data : DataFrame) (start_date end_date : string) :
  canonical data →
  filter_by_date parse_datetime data start_date end_date
  = let* dates := mapM to_date (map (cell_at 5) (rows data)) in
    let* lo := of_option DateParseError (parse_datetime start_date) in
    let* hi := of_option DateParseError (parse_datetime end_date) in
    Ok {| columns := REQUIRED_COLUMNS; rows := omap (keep lo hi) (rows data) |}.
Proof.
  intros Hc. unfold filter_by_date.
  rewrite (getitem_canonical data "Date" 5 Hc eq_refl). cbn [bind to_datetime].
  destruct (mapM to_date (map (cell_at 5) (rows data))) as [dates|e] eqn:E; [| done].
  cbn [bind].
  destruct (parse_datetime start_date) as [lo|]; [| done].
  destruct (parse_datetime end_date) as [hi|]; [| done].
  cbn [of_option bind]. f_equal. unfold getitem_mask, setitem. rewrite Hc.
  change (positions "Date" REQUIRED_COLUMNS) with [5%nat]. cbn [columns rows].
  f_equal. apply mask_rows_keep.
  apply mapM_Ok in E. by apply Forall2_fmap_l in E.
Qed.

Lemma filter_by_date_Ok (data : DataFrame) (start_date end_date : string)
    (lo hi : datetime) :
  canonical data →
  Forall (fun row => ∃ d, date row = Ok d) (rows data) →
  parse_datetime start_date = Some lo →
  parse_datetime end_date = Some hi →
  filter_by_date parse_datetime data start_date end_date
  = Ok {| columns := REQUIRED_COLUMNS; rows := omap (keep lo hi) (rows data) |}.
Proof.
  intros Hc Hrows Hlo Hhi. rewrite filter_by_date_canonical by done.
  destruct (mapM_total to_date (map (cell_at 5) (rows data))) as [dates ->].
  { by apply Forall_fmap. }
  by rewrite Hlo, Hhi.
Qed.

Lemma filter_by_date_Ok_inv (data filtered : DataFrame) (start_date end_date : string) :
  canonical data →
  filter_by_date parse_datetime data start_date end_date = Ok filtered →
  ∃ lo hi,
    parse_datetime start_date = Some lo ∧ parse_datetime end_date = Some hi
    ∧ Forall (fun row => ∃ d, date row = Ok d) (rows data)
    ∧ filtered = {| columns := REQUIRED_COLUMNS; rows := omap (keep lo hi) (rows data) |}.
Proof.
  intros Hc. rewrite filter_by_date_canonical by done.
  destruct (mapM to_date (map (cell_at 5) (rows data))) as [dates|e] eqn:E; [| done].
  cbn [bind].
  destruct (parse_datetime start_date) as [lo|]; [| done].
  destruct (parse_datetime end_date) as [hi|]; [| done].
  cbn [of_option bind]. intros [= <-]. exists lo, hi. repeat split; try done.
  apply mapM_Ok, Forall2_fmap_l in E.
  induction E as [|row d rws ds Hd _ IH]; constructor; [by exists d | done].
Qed.

(** Once the filter has returned, nothing else can raise. *)
Lemma aggregate_canonical (data filtered : DataFrame) (start_date end_date : string) :
  canonical data →
  filter_by_date parse_datetime data start_date end_date = Ok filtered →
  agg data start_date end_date
  = Ok {| filtered_data := filtered;
          total_findings := length (rows filtered);
          unique_keywords := length (unique (map (cell_at 0) (rows filtered)));
          monitored_urls := length (unique (map (cell_at 1) (rows filtered)));
          found_keywords :=
            {| columns := REQUIRED_COLUMNS;
               rows := List.filter positive_row (rows filtered) |};
          found_keyword_count := length (List.filter positive_row (rows filtered));
          findings_over_time := groupby_size (map (cell_at 5) (rows filtered));
          keyword_data := value_counts (map (cell_at 0) (rows filtered));
          success_counts :=
            groupby_size (map (cell_at 0) (List.filter positive_row (rows filtered))) |}.
Proof.
  intros Hc Hf.
  assert (canonical filtered) as Hcf.
  { destruct (filter_by_date_Ok_inv _ _ _ _ Hc Hf) as (lo & hi & _ & _ & _ & ->). done. }
  unfold aggregate. rewrite Hf. cbn [bind].
  rewrite (getitem_canonical filtered "Keyword" 0 Hcf eq_refl).
  rewrite (getitem_canonical filtered "URL" 1 Hcf eq_refl).
  rewrite (getitem_canonical filtered "Findings" 2 Hcf eq_refl).
  rewrite (getitem_canonical filtered "Date" 5 Hcf eq_refl).
  cbn [bind series_attr].
  set (found := getitem_mask filtered _).
  assert (found = {| columns := REQUIRED_COLUMNS;
                     rows := List.filter positive_row (rows filtered) |}) as ->.
  { unfold found, getitem_mask. rewrite Hcf. f_equal.
    rewrite map_map. apply mask_rows_map. }
  by rewrite (getitem_canonical {| columns := REQUIRED_COLUMNS |} "Keyword" 0 eq_refl eq_refl).
Qed.


Lemma aggregate_Ok_inv (data : DataFrame) (start_date end_date : string) (m : Metrics) :
  agg data start_date end_date = Ok m →
  filter_by_date parse_datetime data start_date end_date = Ok (filtered_data m).
Proof.
  unfold aggregate.
  destruct (filter_by_date parse_datetime data start_date end_date) as [f|e]; [| done].
  cbn [bind].
  destruct (bind (getitem f "Keyword") series_attr); [| done]. cbn [bind].
  destruct (bind (getitem f "URL") series_attr); [| done]. cbn [bind].
  destruct (bind (getitem f "Findings") series_attr); [| done]. cbn [bind].
  destruct (bind (getitem f "Date") series_attr); [| done]. cbn [bind].
  destruct (bind (getitem _ "Keyword") series_attr); [| done]. cbn [bind].
  by intros [= <-].
Qed.









End Aggregation.

(** ** The callback *)

(** C5. When the loop accepts no fragment (no upload at all, or only
    uploads that are dropped) and the two bounds of the range parse, the
    callback returns: [process_uploaded_files] gives the empty table with
    the six columns, every counter is zero, the three series and the table
    are empty, and the cards read [0]. *)
Theorem no_accepted_fragment_gives_zero_metrics
    (b64decode : string -> option (list Byte.byte))
    (read_excel : list Byte.byte -> option DataFrame)
    (parse_datetime : string -> option datetime)
    (contents : list string) (start_date end_date : string) (lo hi : datetime) :
  process_loop b64decode read_excel contents [] = Ok [] →
  parse_datetime start_date = Some lo →
  parse_datetime end_date = Some hi →
  ∃ m out,
    process_uploaded_files b64decode read_excel contents
      = Ok {| columns := REQUIRED_COLUMNS; rows := [] |}
    ∧ aggregate parse_datetime {| columns := REQUIRED_COLUMNS; rows := [] |}
        start_date end_date = Ok m
    ∧ update_dashboard b64decode read_excel parse_datetime (Some contents)
        start_date end_date = Ok out
    ∧ (total_findings m = 0 ∧ unique_keywords m = 0
       ∧ monitored_urls m = 0 ∧ found_keyword_count m = 0)%nat
    ∧ (findings_over_time m = [] ∧ keyword_data m = [] ∧ success_counts m = [])
    ∧ rows (filtered_data m) = []
    ∧ (total_findings_children out = "Total Findings: 0"
       ∧ unique_keywords_children out = "Unique Keywords: 0"
       ∧ monitored_urls_children out = "Monitored URLs: 0"
       ∧ found_keyword_count_children out = "Found Keywords: 0")
    ∧ (points (findings_over_time_figure out) = []
       ∧ points (keyword_frequency_figure out) = []
       ∧ points (success_frequency_figure out) = [])
    ∧ data_table_data out = [].
Proof.
  intros Hloop Hlo Hhi.
  set (empty := {| columns := REQUIRED_COLUMNS; rows := [] |}).
  assert (process_uploaded_files b64decode read_excel contents = Ok empty) as Hp.
  { unfold process_uploaded_files. by rewrite Hloop. }
  assert (filter_by_date parse_datetime empty start_date end_date = Ok empty) as Hf.
  { by rewrite (filter_by_date_Ok _ empty _ _ lo hi eq_refl (List.Forall_nil _) Hlo Hhi). }
  pose proof (aggregate_canonical _ empty _ _ _ eq_refl Hf) as Hagg.
  eexists _, _. split; [exact Hp |]. split; [exact Hagg |].
  split; [unfold update_dashboard; rewrite Hp; cbn [bind]; rewrite Hagg; reflexivity |].
  by repeat split.
Qed.

(** C10. Before any upload the contents are [None]: the callback raises
    [PreventUpdate] whatever the date range, and so returns none of its
    eight outputs. *)
Theorem no_upload_prevents_update
    (b64decode : string -> option (list Byte.byte))
    (read_excel : list Byte.byte -> option DataFrame)
    (parse_datetime : string -> option datetime)
    (start_date end_date : string) :
  update_dashboard b64decode read_excel parse_datetime None start_date end_date
    = Raise PreventUpdate
  ∧ ∀ out, update_dashboard b64decode read_excel parse_datetime None start_date end_date
           ≠ Ok out.
Proof. split; [reflexivity | discriminate]. Qed.

(** ** The statements on concrete uploads *)

Lemma unparseable_upload_is_dropped_witness :
  Text.split "," Sample.upload_garbage = [Sample.content_type; "Z2FyYmFnZQ=="]
  ∧ Sample.b64decode "Z2FyYmFnZQ==" = Some (String.list_byte_of_string "garbage")
  ∧ Sample.read_excel Sample.sheets (String.list_byte_of_string "garbage") = None
  ∧ Sample.process [Sample.upload_ok; Sample.upload_garbage; Sample.upload_no_time]
    = Sample.process [Sample.upload_ok; Sample.upload_no_time].
Proof.
  assert (Text.split "," Sample.upload_garbage = [Sample.content_type; "Z2FyYmFnZQ=="])
    as Hs by reflexivity.
  assert (Sample.b64decode "Z2FyYmFnZQ==" = Some (String.list_byte_of_string "garbage"))
    as Hd by reflexivity.
  assert (Sample.read_excel Sample.sheets (String.list_byte_of_string "garbage") = None)
    as Hr by reflexivity.
  split; [exact Hs |]. split; [exact Hd |]. split; [exact Hr |].
  exact (proj1 (proj2 (proj2 (proj2
    (unparseable_upload_is_dropped Sample.b64decode (Sample.read_excel Sample.sheets)
       [Sample.upload_ok] [Sample.upload_no_time] _ _ _ _ Hs Hd Hr))))).
Defined.

Lemma url_named_column_is_rejected_witness :
  (∀ col, col ∈ columns Sample.sheet_canonical → fold_name col ≠ "link")
  ∧ normalize_fragment Sample.sheet_canonical = Ok None
  ∧ Sample.process [Sample.upload_ok; Sample.upload_canonical]
    = Sample.process [Sample.upload_ok].
Proof.
  assert (∀ col, col ∈ columns Sample.sheet_canonical → fold_name col ≠ "link") as Hno.
  { intros col Hcol.
    repeat (apply elem_of_cons in Hcol as [->|Hcol]; [discriminate |]).
    by apply elem_of_nil in Hcol. }
  destruct (url_named_column_is_rejected Sample.sheet_canonical Hno)
    as (_ & Hrej & _ & _ & _ & Hdrop).
  split; [exact Hno |]. split; [exact Hrej |].
  apply (Hdrop Sample.b64decode (Sample.read_excel Sample.sheets)
           [Sample.upload_ok] [] Sample.upload_canonical).
  - by exists Sample.content_type, "Y2Fub25pY2Fs", (String.list_byte_of_string "canonical").
  - reflexivity.
Defined.




Lemma no_accepted_fragment_gives_zero_metrics_witness :
  process_loop Sample.b64decode (Sample.read_excel Sample.sheets)
    [Sample.upload_garbage; Sample.upload_no_time] [] = Ok []
  ∧ Sample.parse_datetime "2021-01-01" = Some (Timestamp Sample.jan_1)
  ∧ Sample.parse_datetime "2021-01-31" = Some (Timestamp Sample.jan_31)
  ∧ ∃ out, Sample.run (Some [Sample.upload_garbage; Sample.upload_no_time])
             "2021-01-01" "2021-01-31" = Ok out
           ∧ total_findings_children out = "Total Findings: 0"
           ∧ data_table_data out = [].
Proof.
  assert (process_loop Sample.b64decode (Sample.read_excel Sample.sheets)
            [Sample.upload_garbage; Sample.upload_no_time] [] = Ok []) as Hloop
    by (vm_compute; reflexivity).
  assert (Sample.parse_datetime "2021-01-01" = Some (Timestamp Sample.jan_1)) as Hlo
    by (vm_compute; reflexivity).
  assert (Sample.parse_datetime "2021-01-31" = Some (Timestamp Sample.jan_31)) as Hhi
    by (vm_compute; reflexivity).
  split; [exact Hloop |]. split; [exact Hlo |]. split; [exact Hhi |].
  destruct (no_accepted_fragment_gives_zero_metrics _ _ _ _ _ _ _ _ Hloop Hlo Hhi)
    as (m & out & _ & _ & Hout & _ & _ & _ & (Htotal & _) & _ & Htable).
  exists out. split; [exact Hout |]. split; [exact Htotal | exact Htable].
Defined.

Lemma no_upload_at_all_gives_zero_metrics :
  ∃ out, Sample.run (Some []) "2021-01-01" "2021-01-31" = Ok out
         ∧ total_findings_children out = "Total Findings: 0"
         ∧ unique_keywords_children out = "Unique Keywords: 0"
         ∧ monitored_urls_children out = "Monitored URLs: 0"
         ∧ found_keyword_count_children out = "Found Keywords: 0"
         ∧ data_table_data out = [].
Proof. eexists. split; [vm_compute; reflexivity |]. by repeat split. Qed.

(** ** The statements on concrete tables *)







(** ** Scenarios *)

(** A sheet with the six columns and a sheet without the time column: the
    table holds the rows of the first sheet only. *)
Example scenario_missing_time_column :
  Sample.process [Sample.upload_ok; Sample.upload_no_time]
  = Ok (Sample.table_of Sample.sheet_ok).
Proof. vm_compute. reflexivity. Qed.

(** Three rows on 2021-01-01 and two on 2021-02-01, range 2021-01-01 to
    2021-01-31: three findings, one date bucket. *)
Example scenario_january :
  ∃ m, aggregate Sample.parse_datetime (Sample.table_of Sample.sheet_ok)
         "2021-01-01" "2021-01-31" = Ok m
       ∧ total_findings m = 3%nat
       ∧ unique_keywords m = 2%nat
       ∧ monitored_urls m = 2%nat
       ∧ found_keyword_count m = 1%nat
       ∧ findings_over_time m = [(CTime Sample.jan_1, 3%nat)]
       ∧ keyword_data m = [(CStr "leak", 2%nat); (CStr "dump", 1%nat)]
       ∧ success_counts m = [(CStr "leak", 1%nat)].
Proof. eexists. split; [vm_compute; reflexivity |]. by repeat split. Qed.

Example scenario_cards :
  ∃ out, Sample.run (Some [Sample.upload_ok]) "2021-01-01" "2021-01-31" = Ok out
         ∧ total_findings_children out = "Total Findings: 3"
         ∧ unique_keywords_children out = "Unique Keywords: 2"
         ∧ monitored_urls_children out = "Monitored URLs: 2"
         ∧ found_keyword_count_children out = "Found Keywords: 1".
Proof. eexists. split; [vm_compute; reflexivity |]. by repeat split. Qed.

Example fold_names :
  map fold_name [" Link "; "LINK"; "link"; "URL"; " Url "]
  = ["link"; "link"; "link"; "url"; "url"].
Proof. reflexivity. Qed.

Example split_data_url :
  Text.split "," Sample.upload_ok = [Sample.content_type; "b2s="].
Proof. reflexivity. Qed.

Example split_without_comma :
  unpack2 (Text.split "," "abc") = Raise ValueError.
Proof. reflexivity. Qed.

(** * Further properties *)

(** ** Folding of column names *)

Lemma is_space_lower_char (c : ascii) : Text.is_space (Text.lower_char c) = Text.is_space c.
Proof. by destruct c as [[] [] [] [] [] [] [] []]. Qed.

Lemma is_empty_lower (s : string) : Text.is_empty (Text.lower s) = Text.is_empty s.
Proof. by destruct s. Qed.

Lemma lstrip_lower (s : string) : Text.lstrip (Text.lower s) = Text.lower (Text.lstrip s).
Proof.
  induction s as [|c s IH]; simpl; [done |].
  rewrite is_space_lower_char. by destruct (Text.is_space c).
Qed.

Lemma rstrip_lower (s : string) : Text.rstrip (Text.lower s) = Text.lower (Text.rstrip s).
Proof.
  induction s as [|c s IH]; simpl; [done |].
  rewrite is_space_lower_char, IH, is_empty_lower.
  by destruct (Text.is_space c && Text.is_empty (Text.rstrip s)).
Qed.

Lemma strip_lower (s : string) : Text.strip (Text.lower s) = Text.lower (Text.strip s).
Proof. unfold Text.strip. by rewrite lstrip_lower, rstrip_lower. Qed.

Lemma lstrip_all_space (s : string) : all_space s = true → Text.lstrip s = EmptyString.
Proof.
  induction s as [|c s IH]; simpl; [done |].
  intros [Hc Hs]%andb_true_iff. rewrite Hc. by apply IH.
Qed.

Lemma rstrip_all_space (s : string) : all_space s = true → Text.rstrip s = EmptyString.
Proof.
  induction s as [|c s IH]; simpl; [done |].
  intros [Hc Hs]%andb_true_iff. by rewrite Hc, (IH Hs).
Qed.

Lemma lstrip_pad (pad s : string) :
  all_space pad = true → Text.lstrip (pad +:+ s) = Text.lstrip s.
Proof.
  induction pad as [|c pad IH]; simpl; [done |].
  intros [Hc Hs]%andb_true_iff. rewrite Hc. by apply IH.
Qed.

Lemma rstrip_pad (s pad : string) :
  all_space pad = true → Text.rstrip (s +:+ pad) = Text.rstrip s.
Proof.
  intros Hp. induction s as [|c s IH]; simpl; [by apply rstrip_all_space |].
  by rewrite IH.
Qed.

Lemma all_space_app (a b : string) :
  all_space (a +:+ b) = all_space a && all_space b.
Proof. induction a as [|c a IH]; simpl; [done |]. by rewrite IH, andb_assoc. Qed.

Lemma lstrip_app (s p : string) :
  Text.lstrip (s +:+ p)
  = if all_space s then Text.lstrip p else Text.lstrip s +:+ p.
Proof.
  induction s as [|c s IH]; simpl; [done |].
  destruct (Text.is_space c); simpl; [apply IH | done].
Qed.

Lemma strip_pad (pad s pad' : string) :
  all_space pad = true → all_space pad' = true →
  Text.strip (pad +:+ s +:+ pad') = Text.strip s.
Proof.
  intros Hp Hp'. unfold Text.strip. rewrite lstrip_pad by done. rewrite lstrip_app.
  destruct (all_space s) eqn:Hs.
  - by rewrite (lstrip_all_space _ Hp'), (lstrip_all_space _ Hs).
  - by apply rstrip_pad.
Qed.

Lemma rstrip_head (c : ascii) (s : string) :
  Text.is_space c = false → Text.rstrip (String c s) = String c (Text.rstrip s).
Proof. intros H. simpl. by rewrite H. Qed.

Lemma rstrip_idemp (s : string) : Text.rstrip (Text.rstrip s) = Text.rstrip s.
Proof.
  induction s as [|c s IH]; simpl; [done |].
  destruct (Text.is_space c && Text.is_empty (Text.rstrip s)) eqn:E; [done |].
  simpl. by rewrite IH, E.
Qed.

Lemma lstrip_head (s : string) :
  match Text.lstrip s with
  | EmptyString => True
  | String c _ => Text.is_space c = false
  end.
Proof.
  induction s as [|c s IH]; simpl; [done |].
  destruct (Text.is_space c) eqn:E; [done | by simpl].
Qed.

Lemma strip_idemp (s : string) : Text.strip (Text.strip s) = Text.strip s.
Proof.
  unfold Text.strip. pose proof (lstrip_head s) as H.
  destruct (Text.lstrip s) as [|c r]; [done |].
  rewrite (rstrip_head _ _ H). cbn [Text.lstrip]. rewrite H.
  rewrite (rstrip_head _ _ H). by rewrite rstrip_idemp.
Qed.

(** X1. The folding of a column name ignores the white space around the
    name and the case of its letters, and folding a folded name changes
    nothing: two names that differ only in these respects are the same
    column to the normaliser. *)
Theorem fold_name_ignores_case_and_padding (pad pad' a b : string) :
  all_space pad = true →
  all_space pad' = true →
  Text.lower a = Text.lower b →
  fold_name (pad +:+ a +:+ pad') = fold_name b
  ∧ fold_name (fold_name a) = fold_name a
  ∧ rename column_mapping (fold_name (pad +:+ a +:+ pad'))
    = rename column_mapping (fold_name b).
Proof.
  intros Hp Hp' Hab.
  assert (fold_name (pad +:+ a +:+ pad') = fold_name b) as Hfold.
  { unfold fold_name. rewrite strip_pad by done.
    by rewrite <- !strip_lower, Hab. }
  split; [done |]. split; [| by rewrite Hfold].
  unfold fold_name. by rewrite <- strip_lower, lower_idemp, strip_lower, strip_idemp.
Qed.

Lemma fold_name_ignores_case_and_padding_witness :
  all_space "  " = true
  ∧ all_space (String (ascii_of_nat 9) EmptyString) = true
  ∧ Text.lower "Link Response" = Text.lower "LINK RESPONSE"
  ∧ rename column_mapping
      (fold_name ("  " +:+ "Link Response" +:+ String (ascii_of_nat 9) EmptyString))
    = "Link Response".
Proof.
  split; [reflexivity |]. split; [reflexivity |]. split; [reflexivity |].
  rewrite (proj2 (proj2 (fold_name_ignores_case_and_padding
             "  " (String (ascii_of_nat 9) EmptyString) "Link Response" "LINK RESPONSE"
             eq_refl eq_refl eq_refl))).
  reflexivity.
Defined.

(** ** Splitting an upload *)

Lemma split_nonempty (sep : ascii) (s : string) : Text.split sep s ≠ [].
Proof.
  destruct s as [|c s]; simpl; [done |].
  destruct (Ascii.eqb c sep); [done |]. by destruct (Text.split sep s).
Qed.

Lemma join_cons (sep : ascii) (piece : string) (pieces : list string) :
  pieces ≠ [] →
  join sep (piece :: pieces) = piece +:+ String sep (join sep pieces).
Proof. by destruct pieces. Qed.

Lemma join_split (sep : ascii) (s : string) : join sep (Text.split sep s) = s.
Proof.
  induction s as [|c s IH]; simpl; [done |].
  destruct (Ascii.eqb c sep) eqn:E.
  - apply Ascii.eqb_eq in E as ->.
    rewrite join_cons by apply split_nonempty. simpl. by rewrite IH.
  - pose proof (split_nonempty sep s) as Hne.
    destruct (Text.split sep s) as [|piece pieces]; [done |].
    destruct pieces as [|piece' pieces].
    + simpl in *. by rewrite IH.
    + rewrite join_cons by done. rewrite join_cons in IH by done.
      by rewrite <- IH.
Qed.

Lemma split_length (sep : ascii) (s : string) :
  length (Text.split sep s) = S (count_char sep s).
Proof.
  induction s as [|c s IH]; simpl; [done |].
  destruct (Ascii.eqb c sep); simpl; [by rewrite IH |].
  pose proof (split_nonempty sep s) as Hne.
  destruct (Text.split sep s) as [|piece pieces]; [done |]. exact IH.
Qed.

Lemma split_pieces (sep : ascii) (s : string) :
  Forall (fun piece => count_char sep piece = 0%nat) (Text.split sep s).
Proof.
  induction s as [|c s IH]; simpl; [by repeat constructor |].
  destruct (Ascii.eqb c sep) eqn:E; [by constructor |].
  destruct (Text.split sep s) as [|piece pieces]; simpl.
  - repeat constructor. simpl. by rewrite E.
  - apply Forall_cons in IH as [Hp Hps]. constructor; [| done]. simpl. by rewrite E.
Qed.

(** X2. Splitting at a separator loses nothing: joining the pieces with
    the separator gives the string back, no piece holds the separator, and
    there is one piece more than there are separators. So the unpacking of
    line 42 succeeds exactly on a content with one comma, with the text
    before the comma and the text after it. *)
Theorem split_then_unpack (content : string) :
  join "," (Text.split "," content) = content
  ∧ length (Text.split "," content) = S (count_char "," content)
  ∧ Forall (fun piece => count_char "," piece = 0%nat) (Text.split "," content)
  ∧ ((∃ pieces, unpack2 (Text.split "," content) = Ok pieces)
     ↔ count_char "," content = 1%nat)
  ∧ (count_char "," content ≠ 1%nat →
       unpack2 (Text.split "," content) = Raise ValueError)
  ∧ (∀ content_type content_string,
       unpack2 (Text.split "," content) = Ok (content_type, content_string) →
       content = content_type +:+ "," +:+ content_string).
Proof.
  pose proof (join_split "," content) as Hjoin.
  pose proof (split_length "," content) as Hlen.
  split; [done |]. split; [done |]. split; [apply split_pieces |].
  destruct (Text.split "," content) as [|a [|b [|c l]]] eqn:E; simpl in Hlen.
  - by destruct (split_nonempty "," content).
  - split; [split; [by intros [? ?] | intros H; lia] |].
    split; [done | by intros ? ?].
  - split; [split; [intros _; lia | by eexists] |].
    split; [intros H; lia |]. intros t p [= <- <-]. by rewrite <- Hjoin.
  - split; [split; [by intros [? ?] | intros H; lia] |].
    split; [done | by intros ? ?].
Qed.

(** ** Accepted fragments *)

Lemma normalize_fragment_Some (df f : DataFrame) :
  normalize_fragment df = Ok (Some f) →
  REQUIRED_COLUMNS ⊆ columns (clean_column_names df)
  ∧ f = take_columns (clean_column_names df)
          (flat_map (fun k => positions k (columns (clean_column_names df)))
             REQUIRED_COLUMNS).
Proof.
  intros H.
  destruct (decide (REQUIRED_COLUMNS ⊆ columns (clean_column_names df))) as [Hsub|Hno].
  - split; [done |]. rewrite (normalize_fragment_accept _ Hsub) in H. by injection H.
  - rewrite (normalize_fragment_reject _ Hno) in H. discriminate.
Qed.

(** The labels of an accepted fragment are the six canonical names. *)
Lemma fragment_labels (df f : DataFrame) (col : string) :
  normalize_fragment df = Ok (Some f) →
  col ∈ columns f ↔ col ∈ REQUIRED_COLUMNS.
Proof.
  intros (Hsub & ->)%normalize_fragment_Some. cbn [take_columns columns].
  rewrite indexer_labels, list_elem_of_In, in_flat_map. split.
  - intros (k & Hk & Hcol). apply list_elem_of_In in Hk, Hcol.
    by apply elem_of_replicate in Hcol as [-> _].
  - intros Hcol. exists col. split; [by apply list_elem_of_In |].
    apply list_elem_of_In, elem_of_replicate. split; [done |].
    intros Hlen. apply nil_length_inv, positions_nil in Hlen. by apply Hlen, Hsub.
Qed.

Lemma fragment_rows_length (df f : DataFrame) :
  normalize_fragment df = Ok (Some f) → length (rows f) = length (rows df).
Proof.
  intros (_ & ->)%normalize_fragment_Some. cbn [take_columns rows]. by rewrite length_map.
Qed.

Lemma no_link_is_rejected (df : DataFrame) :
  (∀ col, col ∈ columns df → fold_name col ≠ "link") →
  normalize_fragment df = Ok None.
Proof.
  intros Hno. apply normalize_fragment_reject. intros Hsub.
  assert ("URL" ∈ columns (clean_column_names df)) as Hurl.
  { apply Hsub. unfold REQUIRED_COLUMNS. set_solver. }
  unfold clean_column_names in Hurl. simpl in Hurl. rewrite map_map in Hurl.
  apply list_elem_of_fmap in Hurl as (col & Hcol & Hin).
  symmetry in Hcol. apply rename_fold_URL in Hcol. by apply (Hno col).
Qed.

(** X3. The normaliser does not accept its own output. An accepted
    fragment has as many rows as the table it comes from, and its labels
    are the six canonical names and no other; normalising it once more
    rejects it, because [URL] folds to [url], which is not renamed. *)
Theorem accepted_fragment_is_not_accepted_again (df f : DataFrame) :
  normalize_fragment df = Ok (Some f) →
  length (rows f) = length (rows df)
  ∧ (∀ col, col ∈ columns f ↔ col ∈ REQUIRED_COLUMNS)
  ∧ normalize_fragment f = Ok None.
Proof.
  intros H. split; [by apply fragment_rows_length |].
  split; [intros col; exact (fragment_labels _ _ col H) |].
  apply no_link_is_rejected. intros col Hcol.
  apply (proj1 (fragment_labels _ _ col H)) in Hcol.
  repeat (apply elem_of_cons in Hcol as [->|Hcol]; [discriminate |]).
  by apply elem_of_nil in Hcol.
Qed.

Lemma accepted_fragment_is_not_accepted_again_witness :
  ∃ f, normalize_fragment Sample.sheet_ok = Ok (Some f)
       ∧ length (rows f) = 5%nat
       ∧ normalize_fragment f = Ok None.
Proof.
  assert (normalize_fragment Sample.sheet_ok = Ok (Some (Sample.table_of Sample.sheet_ok)))
    as H by (vm_compute; reflexivity).
  destruct (accepted_fragment_is_not_accepted_again _ _ H) as (Hlen & _ & Hrej).
  exists (Sample.table_of Sample.sheet_ok).
  split; [exact H |]. split; [exact Hlen | exact Hrej].
Defined.

(** ** Uploads that cannot be split or decoded, and uploads in sequence *)

Lemma dedup_elem_of (seen l : list string) (x : string) :
  x ∈ dedup seen l ↔ x ∈ l ∧ x ∉ seen.
Proof.
  revert seen. induction l as [|y l IH]; intros seen; simpl.
  - split; [by intros ?%elem_of_nil | by intros [?%elem_of_nil _]].
  - case_bool_decide as Hy.
    + rewrite IH, elem_of_cons. split.
      * intros [Hx Hs]. split; [by right | done].
      * intros [[-> | Hx] Hs]; [done | by split].
    + rewrite elem_of_cons, IH, !elem_of_cons. split.
      * intros [-> | [Hx Hs]]; [by split; [left |] |].
        split; [by right |]. intros Hn. apply Hs. by right.
      * intros [[-> | Hx] Hs]; [by left |].
        destruct (decide (x = y)) as [-> | Hne]; [by left |].
        right. split; [done |]. by intros [? | ?].
Qed.

Lemma elem_of_flat_map {A B : Type} (f : A → list B) (l : list A) (x : B) :
  x ∈ flat_map f l ↔ ∃ y, y ∈ l ∧ x ∈ f y.
Proof.
  rewrite list_elem_of_In, in_flat_map. split.
  - intros (y & Hy & Hx). exists y. by rewrite !list_elem_of_In.
  - intros (y & Hy & Hx). exists y. by rewrite <- !list_elem_of_In.
Qed.

Lemma getitem_Raise (df : DataFrame) (label : string) (e : exn) :
  getitem df label = Raise e → e = KeyError ∧ label ∉ columns df.
Proof.
  unfold getitem. destruct (positions label (columns df)) as [|i [|j l]] eqn:E; try done.
  intros [= <-]. split; [done |]. by apply positions_nil.
Qed.

Lemma series_Raise (df : DataFrame) (label : string) (e : exn) :
  label ∈ columns df →
  bind (getitem df label) series_attr = Raise e → e = AttributeError.
Proof.
  intros Hin. destruct (getitem df label) as [[values|frame]|e'] eqn:E; simpl.
  - done.
  - by intros [= <-].
  - by apply getitem_Raise in E as [_ ?].
Qed.

Lemma filter_by_date_columns (parse_datetime : string -> option datetime)
    (data filtered : DataFrame) (start_date end_date : string) :
  filter_by_date parse_datetime data start_date end_date = Ok filtered →
  columns filtered = columns data.
Proof.
  unfold filter_by_date.
  destruct (getitem data "Date") as [date|]; [| done]. cbn [bind].
  destruct (to_datetime parse_datetime date) as [dates|]; [| done]. cbn [bind].
  destruct (of_option DateParseError (parse_datetime start_date)); [| done]. cbn [bind].
  destruct (of_option DateParseError (parse_datetime end_date)); [| done]. cbn [bind].
  intros [= <-]. unfold getitem_mask, setitem. cbn [columns].
  by destruct (positions "Date" (columns data)) as [|i [|j l]].
Qed.

Lemma filter_by_date_Raise (parse_datetime : string -> option datetime)
    (data : DataFrame) (start_date end_date : string) (e : exn) :
  "Date" ∈ columns data →
  filter_by_date parse_datetime data start_date end_date = Raise e →
  e = ValueError ∨ e = DateParseError.
Proof.
  intros Hin. unfold filter_by_date.
  destruct (getitem data "Date") as [date|e'] eqn:Eg.
  2:{ by apply getitem_Raise in Eg as [_ ?]. }
  cbn [bind]. destruct (to_datetime parse_datetime date) as [dates|e'] eqn:Ed.
  2:{ cbn [bind]. intros [= <-]. destruct date as [values|frame]; simpl in Ed.
      - apply mapM_Raise in Ed as (c & _ & Hc).
        apply to_datetime_cell_raise in Hc as [-> _]. by right.
      - injection Ed as <-. by left. }
  cbn [bind].
  destruct (parse_datetime start_date); [| intros [= <-]; by right]. cbn [of_option bind].
  destruct (parse_datetime end_date); [| intros [= <-]; by right]. done.
Qed.

(** With the four columns it reads present, the aggregation raises no
    [KeyError]. *)
Lemma aggregate_no_KeyError (parse_datetime : string -> option datetime)
    (data : DataFrame) (start_date end_date : string) :
  "Date" ∈ columns data → "Keyword" ∈ columns data →
  "URL" ∈ columns data → "Findings" ∈ columns data →
  aggregate parse_datetime data start_date end_date ≠ Raise KeyError.
Proof.
  intros Hd Hk Hu Hf. unfold aggregate.
  destruct (filter_by_date parse_datetime data start_date end_date) as [filtered|e] eqn:E.
  2:{ cbn [bind]. intros [= ->]. by apply filter_by_date_Raise in E as [? | ?]. }
  cbn [bind]. apply filter_by_date_columns in E.
  destruct (bind (getitem filtered "Keyword") series_attr) as [keyword|e] eqn:E1.
  2:{ cbn [bind]. intros [= ->]. apply series_Raise in E1; [done | by rewrite E]. }
  cbn [bind].
  destruct (bind (getitem filtered "URL") series_attr) as [url|e] eqn:E2.
  2:{ cbn [bind]. intros [= ->]. apply series_Raise in E2; [done | by rewrite E]. }
  cbn [bind].
  destruct (bind (getitem filtered "Findings") series_attr) as [findings|e] eqn:E3.
  2:{ cbn [bind]. intros [= ->]. apply series_Raise in E3; [done | by rewrite E]. }
  cbn [bind].
  destruct (bind (getitem filtered "Date") series_attr) as [date|e] eqn:E4.
  2:{ cbn [bind]. intros [= ->]. apply series_Raise in E4; [done | by rewrite E]. }
  cbn [bind].
  destruct (bind (getitem (getitem_mask filtered _) "Keyword") series_attr)
    as [found_keyword|e] eqn:E5.
  2:{ cbn [bind]. intros [= ->]. apply series_Raise in E5; [done |].
      unfold getitem_mask. cbn [columns]. by rewrite E. }
  done.
Qed.

Section UploadSequence.

Context (b64decode : string -> option (list Byte.byte)).
Context (read_excel : list Byte.byte -> option DataFrame).

Local Abbreviation loop := (process_loop b64decode read_excel).
Local Abbreviation process := (process_uploaded_files b64decode read_excel).
Local Abbreviation fragment := (accepted_fragment b64decode read_excel).
Local Abbreviation table := (upload_table b64decode read_excel).
Local Abbreviation well_formed := (well_formed_upload b64decode).

Lemma process_loop_Raise (pre post : list string) (c : string) (e : exn) :
  Forall well_formed pre →
  (∀ acc, loop [c] acc = Raise e) →
  loop (pre ++ c :: post) [] = Raise e.
Proof.
  intros Hpre Hc. rewrite process_loop_app, process_loop_well_formed by done.
  cbn [bind]. change (c :: post) with ([c] ++ post). by rewrite process_loop_app, Hc.
Qed.

Lemma process_Raise (pre post : list string) (c : string) (e : exn) :
  Forall well_formed pre →
  (∀ acc, loop [c] acc = Raise e) →
  process (pre ++ c :: post) = Raise e
  ∧ ∀ parse_datetime start_date end_date,
      update_dashboard b64decode read_excel parse_datetime
        (Some (pre ++ c :: post)) start_date end_date = Raise e.
Proof.
  intros Hpre Hc.
  assert (process (pre ++ c :: post) = Raise e) as Hp.
  { unfold process_uploaded_files. by rewrite (process_loop_Raise pre post c e Hpre Hc). }
  split; [done |]. intros parse_datetime start_date end_date.
  unfold update_dashboard. by rewrite Hp.
Qed.

(** X4. The split and the decoding of an upload stand before the [try]:
    the loop returns exactly when every upload splits at one comma and
    decodes. The first upload that does not is fatal to the callback,
    whatever the other uploads are: [ValueError] when it has no comma or
    several, [binascii.Error] when its base64 text does not decode. *)
Theorem malformed_upload_is_fatal (pre post : list string) (content : string) :
  Forall well_formed pre →
  (Forall well_formed (pre ++ content :: post)
   ↔ ∃ frames, loop (pre ++ content :: post) [] = Ok frames)
  ∧ (count_char "," content ≠ 1%nat →
       process (pre ++ content :: post) = Raise ValueError
       ∧ ∀ parse_datetime start_date end_date,
           update_dashboard b64decode read_excel parse_datetime
             (Some (pre ++ content :: post)) start_date end_date = Raise ValueError)
  ∧ (∀ content_type content_string,
       Text.split "," content = [content_type; content_string] →
       b64decode content_string = None →
       process (pre ++ content :: post) = Raise BinasciiError
       ∧ ∀ parse_datetime start_date end_date,
           update_dashboard b64decode read_excel parse_datetime
             (Some (pre ++ content :: post)) start_date end_date = Raise BinasciiError).
Proof.
  intros Hpre. split; [| split].
  - split.
    + intros H. eexists. by apply process_loop_well_formed.
    + intros [frames H]. by eapply process_loop_ok_well_formed.
  - intros Hcount. apply process_Raise; [done |]. intros acc. cbn [process_loop].
    pose proof (split_length "," content) as Hlen.
    destruct (Text.split "," content) as [|a [|b [|c l]]]; simpl in *; try done. lia.
  - intros content_type content_string Hs Hd. apply process_Raise; [done |].
    intros acc. cbn [process_loop]. rewrite Hs. simpl. by rewrite Hd.
Qed.



Lemma accepted_fragment_labels (content : string) (f : DataFrame) (col : string) :
  fragment content = Some f → col ∈ columns f ↔ col ∈ REQUIRED_COLUMNS.
Proof.
  unfold accepted_fragment. destruct (table content) as [df|]; [| done]. simpl.
  destruct (normalize_fragment df) as [[f'|]|] eqn:E; try done.
  intros [= ->]. by eapply fragment_labels.
Qed.

(** X6. Whatever the uploads are, a table that [process_uploaded_files]
    returns has each of the six canonical names among its labels and no
    label that is not one of them; so the aggregation of such a table never
    fails for a missing column. *)
Theorem returned_table_has_the_six_names (contents : list string) (data : DataFrame) :
  process contents = Ok data →
  (∀ col, col ∈ columns data ↔ col ∈ REQUIRED_COLUMNS)
  ∧ ∀ parse_datetime start_date end_date,
      aggregate parse_datetime data start_date end_date ≠ Raise KeyError.
Proof.
  intros Hp.
  assert (∀ col, col ∈ columns data ↔ col ∈ REQUIRED_COLUMNS) as Hlabels.
  { unfold process_uploaded_files in Hp.
    destruct (loop contents []) as [frames|e] eqn:E; [| done]. cbn [bind] in Hp.
    pose proof (process_loop_ok_well_formed _ _ _ _ _ E) as Hw.
    rewrite process_loop_well_formed in E by done. injection E as <-. simpl in Hp.
    assert (Forall (fun f => ∀ col, col ∈ columns f ↔ col ∈ REQUIRED_COLUMNS)
              (omap fragment contents)) as Hall.
    { apply Forall_forall. intros f (c & _ & Hf)%list_elem_of_omap col.
      by eapply accepted_fragment_labels. }
    destruct (omap fragment contents) as [|f frames]; [by injection Hp as <- |].
    unfold concat in Hp.
    destruct (forallb _ frames); [injection Hp as <-; by apply Forall_cons in Hall as [? _] |].
    destruct (existsb has_repeated_label (f :: frames)); [done |]. injection Hp as <-.
    intros col. cbn [columns]. rewrite dedup_elem_of.
    change (columns f ++ flat_map columns frames) with (flat_map columns (f :: frames)).
    rewrite elem_of_flat_map. split.
    - intros [(frame & Hin & Hcol) _].
      rewrite Forall_forall in Hall. by apply (Hall frame Hin).
    - intros Hcol. split; [| by intros ?%elem_of_nil].
      exists f. split; [by left |].
      apply Forall_cons in Hall as [Hf _]. by apply Hf. }
  split; [done |]. intros parse_datetime start_date end_date.
  apply aggregate_no_KeyError; apply Hlabels; unfold REQUIRED_COLUMNS;
    repeat (first [by left | right]).
Qed.

End UploadSequence.

(** ** Sorting and counting *)












(** ** The filtered table and the counters *)







Section Counters.

Context (parse_datetime : string -> option datetime).

Local Abbreviation date := (date_of parse_datetime).
Local Abbreviation keep := (keep_row parse_datetime).
Local Abbreviation agg := (aggregate parse_datetime).








End Counters.

(** ** The three series *)













Section Series.

Context (parse_datetime : string -> option datetime).

Local Abbreviation date := (date_of parse_datetime).
Local Abbreviation keep := (keep_row parse_datetime).
Local Abbreviation agg := (aggregate parse_datetime).





End Series.

(** ** Repeated labels, records and cards *)

Lemma series_cases (df : DataFrame) (label : string) :
  label ∈ columns df →
  (∃ values, bind (getitem df label) series_attr = Ok values
             ∧ length (positions label (columns df)) = 1%nat)
  ∨ (bind (getitem df label) series_attr = Raise AttributeError
     ∧ (2 ≤ length (positions label (columns df)))%nat).
Proof.
  intros Hin. unfold getitem.
  destruct (positions label (columns df)) as [|i [|j l]] eqn:E.
  - by apply positions_nil in E.
  - left. by eexists.
  - right. split; [done | simpl; lia].
Qed.

(** X15. A table in which a label that the callback reads names two
    columns is fatal to the callback. Two [Date] columns make the
    conversion of the dates raise [ValueError]; with one [Date] column and a
    filter that returns, two [Keyword], [URL] or [Findings] columns make
    the aggregation raise [AttributeError], since the selection is then a
    frame and has neither [unique] nor [str]. *)
Theorem repeated_label_is_fatal (parse_datetime : string -> option datetime)
    (data : DataFrame) (start_date end_date : string) :
  ((2 ≤ length (positions "Date" (columns data)))%nat →
     aggregate parse_datetime data start_date end_date = Raise ValueError)
  ∧ (∀ filtered label,
       filter_by_date parse_datetime data start_date end_date = Ok filtered →
       "Keyword" ∈ columns data → "URL" ∈ columns data → "Findings" ∈ columns data →
       label ∈ ["Keyword"; "URL"; "Findings"] →
       (2 ≤ length (positions label (columns data)))%nat →
       aggregate parse_datetime data start_date end_date = Raise AttributeError).
Proof.
  split.
  - intros Hlen. unfold aggregate, filter_by_date, getitem.
    destruct (positions "Date" (columns data)) as [|i [|j l]]; simpl in Hlen; try lia.
    done.
  - intros filtered label Hf Hk Hu Hfi Hlabel Hlen.
    pose proof (filter_by_date_columns _ _ _ _ _ Hf) as Hcols.
    unfold aggregate. rewrite Hf. cbn [bind].
    destruct (series_cases filtered "Keyword") as [(keyword & -> & Hk1) | [-> _]];
      [by rewrite Hcols | | done].
    cbn [bind].
    destruct (series_cases filtered "URL") as [(url & -> & Hu1) | [-> _]];
      [by rewrite Hcols | | done].
    cbn [bind].
    destruct (series_cases filtered "Findings") as [(findings & -> & Hf1) | [-> _]];
      [by rewrite Hcols | | done].
    exfalso. rewrite Hcols in Hk1, Hu1, Hf1.
    repeat (apply elem_of_cons in Hlabel as [-> | Hlabel]; [lia |]).
    by apply elem_of_nil in Hlabel.
Qed.

(** X16. The records of the table on display: there is one record per
    row, in the order of the rows, and in a frame with distinct labels and
    rows as long as the list of labels, the record of a row maps each label
    to the cell of the row in that column, and has no other key. *)
Theorem records_hold_the_cells (df : DataFrame) (i : nat) (row : list cell) :
  NoDup (columns df) →
  rows df !! i = Some row →
  length row = length (columns df) →
  length (to_dict_records df) = length (rows df)
  ∧ ∃ record,
      to_dict_records df !! i = Some record
      ∧ dom record = list_to_set (columns df)
      ∧ ∀ j col, columns df !! j = Some col → record !! col = Some (cell_at j row).
Proof.
  intros Hnd Hrow Hlen. unfold to_dict_records. split; [by rewrite length_map |].
  eexists. split; [by rewrite list_lookup_fmap, Hrow |].
  assert ((reverse (zip (columns df) row)).*1 = reverse (columns df)) as Hfst.
  { rewrite fmap_reverse, fst_zip; [done | lia]. }
  split.
  - rewrite dom_list_to_map_L, Hfst. apply set_eq. intros k.
    by rewrite !elem_of_list_to_set, elem_of_reverse.
  - intros j col Hcol. apply elem_of_list_to_map_1.
    + by rewrite Hfst, reverse_Permutation.
    + apply elem_of_reverse. apply (list_elem_of_lookup_2 _ j).
      apply lookup_zip_Some. split; [done |]. unfold cell_at.
      destruct (row !! j) as [c|] eqn:E; [done |].
      apply lookup_ge_None in E. apply lookup_lt_Some in Hcol. lia.
Qed.

Lemma to_nat_of_nat (n : nat) : to_nat (Text.of_nat n) = Some n.
Proof.
  unfold to_nat, Text.of_nat.
  assert (Nat.to_uint n ≠ Decimal.Nil) as Hnil.
  { destruct (DecimalNat.Unsigned.to_uint_surj (Nat.to_uint n)) as [n' Hn'].
    assert (n' = n) as ->.
    { rewrite <- (DecimalNat.Unsigned.of_to n'), Hn', DecimalNat.Unsigned.of_uint_norm.
      apply DecimalNat.Unsigned.of_to. }
    rewrite Hn'. apply DecimalFacts.unorm_nonnil. }
  rewrite (NilZero.usu _ Hnil). simpl. by rewrite DecimalNat.Unsigned.of_to.
Qed.

(** X17. The four cards show the four counters: the text of each card is
    its label followed by decimal digits that read back as the counter, so
    two results with the same cards have the same counters. *)
Theorem cards_read_back_as_the_counters (m : Metrics) :
  ∃ total keywords urls found,
    total_findings_children (render m) = "Total Findings: " +:+ total
    ∧ unique_keywords_children (render m) = "Unique Keywords: " +:+ keywords
    ∧ monitored_urls_children (render m) = "Monitored URLs: " +:+ urls
    ∧ found_keyword_count_children (render m) = "Found Keywords: " +:+ found
    ∧ to_nat total = Some (total_findings m)
    ∧ to_nat keywords = Some (unique_keywords m)
    ∧ to_nat urls = Some (monitored_urls m)
    ∧ to_nat found = Some (found_keyword_count m).
Proof.
  exists (Text.of_nat (total_findings m)), (Text.of_nat (unique_keywords m)),
    (Text.of_nat (monitored_urls m)), (Text.of_nat (found_keyword_count m)).
  repeat (split; [reflexivity |]).
  repeat split; apply to_nat_of_nat.
Qed.

(** ** The further statements on concrete uploads and tables *)

Lemma sample_upload_ok_well_formed :
  Forall (well_formed_upload Sample.b64decode) [Sample.upload_ok].
Proof.
  repeat constructor.
  by exists Sample.content_type, "b2s=", (String.list_byte_of_string "ok").
Defined.




Lemma malformed_upload_is_fatal_witness :
  Forall (well_formed_upload Sample.b64decode) [Sample.upload_ok]
  ∧ count_char "," "no comma here" ≠ 1%nat
  ∧ Sample.process ([Sample.upload_ok] ++ "no comma here" :: [Sample.upload_no_time])
    = Raise ValueError.
Proof.
  split; [exact sample_upload_ok_well_formed |].
  assert (count_char "," "no comma here" ≠ 1%nat) as Hcount by discriminate.
  split; [exact Hcount |].
  destruct (malformed_upload_is_fatal Sample.b64decode (Sample.read_excel Sample.sheets)
              [Sample.upload_ok] [Sample.upload_no_time] "no comma here"
              sample_upload_ok_well_formed) as (_ & Hvalue & _).
  exact (proj1 (Hvalue Hcount)).
Defined.


Lemma returned_table_has_the_six_names_witness :
  ∃ data, Sample.process [Sample.upload_two_links] = Ok data
          ∧ length (columns data) = 7%nat
          ∧ (∀ col, col ∈ columns data ↔ col ∈ REQUIRED_COLUMNS)
          ∧ aggregate Sample.parse_datetime data "2021-01-01" "2021-01-31"
            ≠ Raise KeyError.
Proof.
  let r := eval vm_compute in (Sample.process [Sample.upload_two_links]) in
  assert (Sample.process [Sample.upload_two_links] = r) as Hp by (vm_compute; reflexivity).
  destruct (returned_table_has_the_six_names _ _ _ _ Hp) as [Hlabels Hkey].
  eexists. split; [exact Hp |]. split; [reflexivity |]. split; [exact Hlabels |].
  apply Hkey.
Defined.









Lemma repeated_label_is_fatal_witness :
  ∃ data, Sample.process [Sample.upload_two_links] = Ok data
          ∧ (2 ≤ length (positions "URL" (columns data)))%nat
          ∧ aggregate Sample.parse_datetime data "2021-01-01" "2021-01-31"
            = Raise AttributeError.
Proof.
  let r := eval vm_compute in (Sample.process [Sample.upload_two_links]) in
  assert (Sample.process [Sample.upload_two_links] = r) as Hp by (vm_compute; reflexivity).
  eexists. split; [exact Hp |].
  assert (2 ≤ length (positions "URL"
            ["Keyword"; "URL"; "URL"; "Findings"; "Link Response"; "Time"; "Date"]))%nat
    as Hlen by (vm_compute; lia).
  split; [exact Hlen |].
  destruct (repeated_label_is_fatal Sample.parse_datetime
              {| columns := ["Keyword"; "URL"; "URL"; "Findings"; "Link Response"; "Time";
                             "Date"];
                 rows := [ [CStr "leak"; CStr "http://f.onion"; CStr "http://g.onion";
                            CStr "Keyword found"; CStr "200"; CStr "12:00";
                            CStr "2021-01-04"] ] |}
              "2021-01-01" "2021-01-31") as [_ Hattr].
  eapply (Hattr _ "URL").
  - vm_compute. reflexivity.
  - by left.
  - right. by left.
  - do 3 right. by left.
  - right. by left.
  - exact Hlen.
Defined.

Lemma records_hold_the_cells_witness :
  NoDup (columns (Sample.table_of Sample.sheet_ok))
  ∧ ∃ record,
      to_dict_records (Sample.table_of Sample.sheet_ok) !! 2%nat = Some record
      ∧ record !! "Keyword" = Some (CStr "dump")
      ∧ record !! "Findings" = Some CNull.
Proof.
  assert (NoDup (columns (Sample.table_of Sample.sheet_ok))) as Hnd.
  { apply (bool_decide_unpack _). vm_compute. exact I. }
  split; [exact Hnd |].
  destruct (records_hold_the_cells (Sample.table_of Sample.sheet_ok) 2
              [CStr "dump"; CStr "http://a.onion"; CNull;
               CStr "404"; CStr "10:10"; CStr "2021-01-01"] Hnd eq_refl eq_refl)
    as (_ & record & Hrec & _ & Hcells).
  exists record. split; [exact Hrec |].
  split; [exact (Hcells 0%nat "Keyword" eq_refl) | exact (Hcells 2%nat "Findings" eq_refl)].
Defined.
